(** * Event fan-out and reactive consumers of the todo backend (Phase V)

    A shallow embedding of
      - [backend/app/events/schemas.py]  (event envelope),
      - [backend/app/events/publisher.py] (publish with bounded retries),
      - [services/audit/main.py]          (audit consumer),
      - [services/notification/main.py]   (notification consumer),
      - [services/recurring/main.py]      (recurrence consumer),
    followed by the properties of the event subsystem.

    Conventions.  Python values that arrive as parsed JSON are values of
    [json]; a Python [dict] is an insertion-ordered association list with
    unique keys; a caught exception is [None] in an [option] result (every
    handler of the services has a single [except Exception] at its
    boundary, so the kind of exception is never observed); the outside
    world (state store, database, HTTP peers, clock) is a record of
    responses handed to the model, and every request a function issues is
    returned in a trace. *)

From Stdlib Require Import ZArith String Ascii List Bool Lia.
From Stdlib Require Import DecimalString DecimalZ.
From stdpp Require Import base option gmap strings list fin_maps.

Local Open Scope string_scope.
Local Open Scope Z_scope.
Local Open Scope list_scope.
Set Warnings "-register-all,-clear-no-such-hyp".

(* ===================================================================== *)
(** ** Python values                                                      *)
(* ===================================================================== *)

Module Py.

(** A parsed JSON document, as [request.json()] returns it.  JSON numbers
    are integers here: no event field of the system carries a float. *)
Inductive json : Type :=
  | JNull
  | JBool (b : bool)
  | JInt (z : Z)
  | JStr (s : string)
  | JList (l : list json)
  | JObj (kvs : list (string * json)).

(** Python's [dict] of string keys. *)
Definition dict : Type := list (string * json).

(** [bool(v)]: the truth value Python's [if v] and [not v] test. *)
Definition truthy (v : json) : bool :=
  match v with
  | JNull => false
  | JBool b => b
  | JInt z => negb (z =? 0)
  | JStr s => negb (String.eqb s "")
  | JList l => match l with [] => false | _ => true end
  | JObj kvs => match kvs with [] => false | _ => true end
  end.

(** [d.get(k)] on a dict: [None] of the model is Python's [None] result
    for a missing key; a key bound to JSON [null] yields [Some JNull]. *)
Fixpoint dict_lookup (k : string) (d : dict) : option json :=
  match d with
  | [] => None
  | (k', v) :: d' => if String.eqb k k' then Some v else dict_lookup k d'
  end.

(** [d.get(k)]: Python's [None] and JSON [null] are the same value. *)
Definition dict_get (k : string) (d : dict) : json :=
  match dict_lookup k d with Some v => v | None => JNull end.

(** [d.get(k, default)]. *)
Definition dict_get_default (k : string) (default : json) (d : dict) : json :=
  match dict_lookup k d with Some v => v | None => default end.

(** [{**d, k: v}] and [d[k] = v]: an existing key keeps its position. *)
Fixpoint dict_set (k : string) (v : json) (d : dict) : dict :=
  match d with
  | [] => [(k, v)]
  | (k', v') :: d' =>
      if String.eqb k k' then (k, v) :: d' else (k', v') :: dict_set k v d'
  end.

(** [v.get(...)] raises [AttributeError] unless [v] is a dict. *)
Definition as_dict (v : json) : option dict :=
  match v with JObj kvs => Some kvs | _ => None end.

(** [v == s] for a string literal [s]. *)
Definition eq_str (v : json) (s : string) : bool :=
  match v with JStr s' => String.eqb s' s | _ => false end.

(** [s.startswith(p)]. *)
Fixpoint startswith (p s : string) : bool :=
  match p, s with
  | EmptyString, _ => true
  | String a p', String b s' => if Ascii.eqb a b then startswith p' s' else false
  | String _ _, EmptyString => false
  end.

(** [sub in s] for two strings: [sub] occurs somewhere in [s]. *)
Fixpoint str_contains (sub s : string) : bool :=
  if startswith sub s then true
  else match s with
       | EmptyString => false
       | String _ s' => str_contains sub s'
       end.

(** [lit in v] for a string literal [lit] and a JSON value [v]: substring
    test on a string, membership on a list, key membership on a dict,
    [TypeError] (argument is not iterable) on null, booleans and
    integers. *)
Definition str_in (lit : string) (v : json) : option bool :=
  match v with
  | JStr s => Some (str_contains lit s)
  | JList l => Some (existsb (fun x => eq_str x lit) l)
  | JObj kvs => Some (existsb (fun kv => String.eqb (fst kv) lit) kvs)
  | JNull | JBool _ | JInt _ => None
  end.

(** [str(z)] for an integer. *)
Definition str_of_Z (z : Z) : string := NilZero.string_of_int (Z.to_int z).

(** [", ".join(xs)]. *)
Fixpoint join (sep : string) (xs : list string) : string :=
  match xs with
  | [] => ""
  | [x] => x
  | x :: xs' => x +:+ sep +:+ join sep xs'
  end.

(** [repr(v)].  A string is shown in single quotes; the model does not
    escape quotes, backslashes or control characters inside it ([repr] is
    only reached for a string nested in a list or dict, and no identifier
    of the system is a container). *)
Fixpoint py_repr (v : json) : string :=
  match v with
  | JNull => "None"
  | JBool true => "True"
  | JBool false => "False"
  | JInt z => str_of_Z z
  | JStr s => "'" +:+ s +:+ "'"
  | JList l => "[" +:+ join ", " (map py_repr l) +:+ "]"
  | JObj kvs =>
      "{" +:+ join ", " (map (fun kv => "'" +:+ fst kv +:+ "': " +:+ py_repr (snd kv)) kvs) +:+ "}"
  end.

(** [str(v)], which an f-string applies to an interpolated value: a
    string stands for itself, anything else is shown as by [repr]. *)
Definition py_str (v : json) : string :=
  match v with
  | JStr s => s
  | _ => py_repr v
  end.

End Py.

(* ===================================================================== *)
(** ** Calendar dates: [datetime.date], [timedelta], [relativedelta]      *)
(* ===================================================================== *)

(** The recurrence consumer computes on [datetime.date] values with
    [datetime.timedelta] and [dateutil.relativedelta.relativedelta].  Both
    are libraries outside the repository; the definitions below follow
    their reference implementations (the proleptic Gregorian ordinal of
    CPython's [datetime], and the month arithmetic with day clamping of
    [relativedelta.__add__]). *)
Module PyDate.

Record date : Type := mkdate { year : Z; month : Z; day : Z }.

Definition MINYEAR : Z := 1.
Definition MAXYEAR : Z := 9999.
(** [date(9999, 12, 31).toordinal()]. *)
Definition MAXORDINAL : Z := 3652059.

Definition is_leap (y : Z) : bool :=
  (y mod 4 =? 0) && (negb (y mod 100 =? 0) || (y mod 400 =? 0)).

(** Number of days before January 1st of year [y]. *)
Definition days_before_year (y : Z) : Z :=
  let y' := y - 1 in y' * 365 + y' / 4 - y' / 100 + y' / 400.

Definition DAYS_IN_MONTH (m : Z) : Z :=
  match m with
  | 1 => 31 | 2 => 28 | 3 => 31 | 4 => 30 | 5 => 31 | 6 => 30
  | 7 => 31 | 8 => 31 | 9 => 30 | 10 => 31 | 11 => 30 | 12 => 31
  | _ => -1
  end.

Definition DAYS_BEFORE_MONTH (m : Z) : Z :=
  match m with
  | 1 => 0 | 2 => 31 | 3 => 59 | 4 => 90 | 5 => 120 | 6 => 151
  | 7 => 181 | 8 => 212 | 9 => 243 | 10 => 273 | 11 => 304 | 12 => 334
  | _ => -1
  end.

Definition days_in_month (y m : Z) : Z :=
  if (m =? 2) && is_leap y then 29 else DAYS_IN_MONTH m.

Definition days_before_month (y m : Z) : Z :=
  DAYS_BEFORE_MONTH m + (if (2 <? m) && is_leap y then 1 else 0).

(** [date(y, m, d)] raises [ValueError] outside these bounds. *)
Definition valid_date (d : date) : bool :=
  (MINYEAR <=? year d) && (year d <=? MAXYEAR) &&
  (1 <=? month d) && (month d <=? 12) &&
  (1 <=? day d) && (day d <=? days_in_month (year d) (month d)).

Definition ymd2ord (y m d : Z) : Z :=
  days_before_year y + days_before_month y m + d.

Definition toordinal (d : date) : Z := ymd2ord (year d) (month d) (day d).

Definition DI400Y : Z := 146097.
Definition DI100Y : Z := 36524.
Definition DI4Y : Z := 1461.

(** [date.fromordinal(n)], CPython's [_ord2ymd]. *)
Definition fromordinal (n : Z) : date :=
  let n := n - 1 in
  let n400 := n / DI400Y in
  let n := n mod DI400Y in
  let y := n400 * 400 + 1 in
  let n100 := n / DI100Y in
  let n := n mod DI100Y in
  let n4 := n / DI4Y in
  let n := n mod DI4Y in
  let n1 := n / 365 in
  let n := n mod 365 in
  let y := y + n100 * 100 + n4 * 4 + n1 in
  if (n1 =? 4) || (n100 =? 4) then mkdate (y - 1) 12 31
  else
    let leapyear := (n1 =? 3) && (negb (n4 =? 24) || (n100 =? 3)) in
    let m := Z.shiftr (n + 50) 5 in
    let preceding := DAYS_BEFORE_MONTH m + (if (2 <? m) && leapyear then 1 else 0) in
    let '(m, preceding) :=
      if n <? preceding
      then (m - 1,
            preceding - (DAYS_IN_MONTH (m - 1) +
                         (if (m - 1 =? 2) && leapyear then 1 else 0)))
      else (m, preceding) in
    mkdate y m (n - preceding + 1).

(** [timedelta(days=n)]: [OverflowError] beyond 999999999 days. *)
Definition timedelta_days (n : Z) : option Z :=
  if Z.abs n <=? 999999999 then Some n else None.

(** [d + timedelta(days=n)]: [OverflowError] when the result leaves the
    years 1 to 9999. *)
Definition add_days (d : date) (n : Z) : option date :=
  match timedelta_days n with
  | None => None
  | Some n =>
      let o := toordinal d + n in
      if (0 <? o) && (o <=? MAXORDINAL) then Some (fromordinal o) else None
  end.

(** [relativedelta(years=.., months=..)] after the constructor's [_fix]:
    more than eleven months carry into the years, keeping the sign. *)
Record relativedelta : Type := mkrel { rd_years : Z; rd_months : Z }.

Definition sign (x : Z) : Z := if x <? 0 then -1 else 1.

Definition relativedelta_fix (years months : Z) : relativedelta :=
  if 11 <? Z.abs months then
    let s := sign months in
    let dv := (months * s) / 12 in
    let md := (months * s) mod 12 in
    mkrel (years + dv * s) (md * s)
  else mkrel years months.

Definition relativedelta_months (n : Z) : relativedelta := relativedelta_fix 0 n.
Definition relativedelta_years (n : Z) : relativedelta := relativedelta_fix n 0.

(** [d + rd]: move the year and the month, clamp the day to the length of
    the target month, and build the date ([date.replace] raises
    [ValueError] when the year leaves 1 to 9999). *)
Definition add_relativedelta (d : date) (rd : relativedelta) : option date :=
  let y := year d + rd_years rd in
  let m := month d in
  let '(y, m) :=
    if rd_months rd =? 0 then (y, m)
    else
      let m := m + rd_months rd in
      if 12 <? m then (y + 1, m - 12)
      else if m <? 1 then (y - 1, m + 12)
      else (y, m) in
  let dd := Z.min (days_in_month y m) (day d) in
  if (MINYEAR <=? y) && (y <=? MAXYEAR) then Some (mkdate y m dd) else None.

(** *** ISO format *)

Definition digit_of_ascii (c : ascii) : option Z :=
  let n := Z.of_nat (nat_of_ascii c) in
  if (48 <=? n) && (n <=? 57) then Some (n - 48) else None.

Definition ascii_of_digit (n : Z) : ascii := ascii_of_nat (Z.to_nat (48 + n mod 10)).

Fixpoint digits_value (acc : Z) (s : string) : option Z :=
  match s with
  | EmptyString => Some acc
  | String c s' =>
      match digit_of_ascii c with
      | Some n => digits_value (10 * acc + n) s'
      | None => None
      end
  end.

(** [date.fromisoformat(s)] for the calendar form [YYYY-MM-DD], the form
    [date.isoformat] writes and the only one Python 3.7 to 3.10 accept;
    anything else is a [ValueError]. *)
Definition fromisoformat (s : string) : option date :=
  match s with
  | String y1 (String y2 (String y3 (String y4 (String "-"
      (String m1 (String m2 (String "-"
      (String d1 (String d2 EmptyString))))))))) =>
      match digits_value 0 (String y1 (String y2 (String y3 (String y4 EmptyString)))),
            digits_value 0 (String m1 (String m2 EmptyString)),
            digits_value 0 (String d1 (String d2 EmptyString)) with
      | Some y, Some m, Some d =>
          let r := mkdate y m d in
          if valid_date r then Some r else None
      | _, _, _ => None
      end
  | _ => None
  end.

(** [d.isoformat()]: ["%04d-%02d-%02d"]. *)
Definition isoformat (d : date) : string :=
  let y := year d in let m := month d in let dd := day d in
  String (ascii_of_digit (y / 1000)) (String (ascii_of_digit (y / 100))
  (String (ascii_of_digit (y / 10)) (String (ascii_of_digit y)
  (String "-" (String (ascii_of_digit (m / 10)) (String (ascii_of_digit m)
  (String "-" (String (ascii_of_digit (dd / 10)) (String (ascii_of_digit dd)
  EmptyString))))))))).

(** [a > b] on dates. *)
Definition date_gt (a b : date) : bool :=
  (year b <? year a) ||
  ((year b =? year a) && ((month b <? month a) ||
                          ((month b =? month a) && (day b <? day a)))).

(** *** Devices for the proof of the ordinal round trip *)

(** The same day [k] years later. *)
Definition shift_years (k : Z) (d : date) : date :=
  mkdate (year d + k) (month d) (day d).

(** What is checked of a date [d] computed for the ordinal [r + 1] of the
    first 400-year cycle: the round trip, a month and a day in range, a
    year within the cycle, and a year before the last one up to the last
    day of year 399. *)
Definition date_test (r : Z) (d : date) : bool :=
  (toordinal d =? r + 1) &&
  (1 <=? month d) && (month d <=? 12) &&
  (1 <=? day d) && (day d <=? days_in_month (year d) (month d)) &&
  (1 <=? year d) && (year d <=? 400) &&
  ((DI400Y - 366 <=? r) || (year d <=? 399)).

Definition cycle_test (r : Z) : bool :=
  (DI400Y <=? r) || date_test r (fromordinal (r + 1)).

(** [cycle_test] on the [2 ^ k] ordinals from [lo] on. *)
Fixpoint cycle_check (k : nat) (lo : Z) : bool :=
  match k with
  | O => cycle_test lo
  | S k' => cycle_check k' lo && cycle_check k' (lo + 2 ^ Z.of_nat k')
  end.

End PyDate.

(* ===================================================================== *)
(** ** Event schema and envelope ([backend/app/events/schemas.py])        *)
(* ===================================================================== *)

Module Schemas.
Import Py.

Inductive EventType : Type :=
  | TASK_CREATED | TASK_UPDATED | TASK_DELETED | TASK_COMPLETED
  | TASK_UNCOMPLETED | REMINDER_SCHEDULED | REMINDER_TRIGGERED.

Definition EventType_value (t : EventType) : string :=
  match t with
  | TASK_CREATED => "task.created"
  | TASK_UPDATED => "task.updated"
  | TASK_DELETED => "task.deleted"
  | TASK_COMPLETED => "task.completed"
  | TASK_UNCOMPLETED => "task.uncompleted"
  | REMINDER_SCHEDULED => "reminder.scheduled"
  | REMINDER_TRIGGERED => "reminder.triggered"
  end.

Definition all_event_types : list EventType :=
  [TASK_CREATED; TASK_UPDATED; TASK_DELETED; TASK_COMPLETED;
   TASK_UNCOMPLETED; REMINDER_SCHEDULED; REMINDER_TRIGGERED].

Inductive Topics : Type := TASK_EVENTS | REMINDERS | TASK_UPDATES.

Definition Topics_value (t : Topics) : string :=
  match t with
  | TASK_EVENTS => "task-events"
  | REMINDERS => "reminders"
  | TASK_UPDATES => "task-updates"
  end.

(** [class TaskEvent(BaseModel)], fields in declaration order. *)
Record TaskEvent : Type := mkTaskEvent {
  specversion : string;
  id : string;
  source : string;
  type : string;
  datacontenttype : string;
  time : string;
  version : string;
  data : dict
}.

(** What the two [default_factory] fields draw from the outside: a fresh
    [str(uuid.uuid4())] and [datetime.utcnow().isoformat() + "Z"]. *)
Record Defaults : Type := mkDefaults { fresh_id : string; now : string }.

(** [TaskEvent.to_dict], that is [model_dump()]: one key per field, in
    declaration order; the payload dict is dumped as it is. *)
Definition to_dict (e : TaskEvent) : dict :=
  [ ("specversion", JStr (specversion e));
    ("id", JStr (id e));
    ("source", JStr (source e));
    ("type", JStr (type e));
    ("datacontenttype", JStr (datacontenttype e));
    ("time", JStr (time e));
    ("version", JStr (version e));
    ("data", JObj (data e)) ].

(** Validation of one [str] field: a missing key takes the default (a
    required field has none), a value that is not a string is a
    [ValidationError]. *)
Definition str_field (k : string) (default : option string) (d : dict) : option string :=
  match dict_lookup k d with
  | Some (JStr s) => Some s
  | Some _ => None
  | None => default
  end.

(** Validation of the required [data: Dict[str, Any]] field. *)
Definition dict_field (k : string) (d : dict) : option dict :=
  match dict_lookup k d with
  | Some (JObj kvs) => Some kvs
  | _ => None
  end.

(** [TaskEvent] built from the keyword arguments [d] (the constructor
    call with the unpacked dict, equally [model_validate(d)]): the
    envelope parsed back from its dict form; [None] is pydantic's
    [ValidationError].  Keys that are no field are ignored. *)
Definition TaskEvent_parse (dflt : Defaults) (d : dict) : option TaskEvent :=
  sv ← str_field "specversion" (Some "1.0") d;
  i ← str_field "id" (Some (fresh_id dflt)) d;
  src ← str_field "source" (Some "todo-backend") d;
  ty ← str_field "type" None d;
  ct ← str_field "datacontenttype" (Some "application/json") d;
  tm ← str_field "time" (Some (now dflt)) d;
  ver ← str_field "version" (Some "1.0") d;
  dat ← dict_field "data" d;
  Some (mkTaskEvent sv i src ty ct tm ver dat).

(** The call [cls] with [type=ty, data=dat]: construction with every other field left
    to its default. *)
Definition TaskEvent_new (dflt : Defaults) (ty : string) (dat : dict) : TaskEvent :=
  mkTaskEvent "1.0" (fresh_id dflt) "todo-backend" ty "application/json"
              (now dflt) "1.0" dat.

(** [TaskDeletedEvent.from_task]. *)
Definition TaskDeletedEvent_from_task (dflt : Defaults) (task_id : Z) (user_id : string)
  : TaskEvent :=
  TaskEvent_new dflt (EventType_value TASK_DELETED)
    [("task_id", JInt task_id); ("user_id", JStr user_id)].

(** [TaskCompletedEvent.from_task]: the type follows the [completed] flag. *)
Definition TaskCompletedEvent_from_task (dflt : Defaults) (task_id : Z)
    (user_id title : string) (completed : bool) : TaskEvent :=
  TaskEvent_new dflt
    (if completed then EventType_value TASK_COMPLETED
     else EventType_value TASK_UNCOMPLETED)
    [("task_id", JInt task_id); ("user_id", JStr user_id);
     ("title", JStr title); ("completed", JBool completed)].

(** [TaskCreatedEvent.from_task]: the payload is the dump of a
    [TaskData], one key per field in declaration order; a missing
    description or due date is dumped as null, a due date in ISO form. *)
Definition TaskCreatedEvent_from_task (dflt : Defaults) (task_id : Z)
    (user_id title : string) (description : option string)
    (priority category status : string) (due_date : option PyDate.date)
    (completed : bool) : TaskEvent :=
  TaskEvent_new dflt (EventType_value TASK_CREATED)
    [("task_id", JInt task_id);
     ("user_id", JStr user_id);
     ("title", JStr title);
     ("description", match description with Some d => JStr d | None => JNull end);
     ("priority", JStr priority);
     ("category", JStr category);
     ("status", JStr status);
     ("due_date", match due_date with
                  | Some d => JStr (PyDate.isoformat d)
                  | None => JNull
                  end);
     ("completed", JBool completed)].

End Schemas.

(* ===================================================================== *)
(** ** Event publisher ([backend/app/events/publisher.py])                *)
(* ===================================================================== *)

Module Publisher.
Import Py Schemas.

(** [EventPublisher]; the HTTP timeout (a float handed to the HTTP
    client) plays no part in the control flow and is left out. *)
Record EventPublisher : Type := mkEventPublisher {
  dapr_host : string;
  dapr_port : Z;
  pubsub_name : string;
  enabled : bool
}.

(** The singleton's configuration with the default port. *)
Definition default_publisher (enabled : bool) : EventPublisher :=
  mkEventPublisher "localhost" 3500 "pubsub-kafka" enabled.

Definition base_url (p : EventPublisher) : string :=
  "http://" +:+ dapr_host p +:+ ":" +:+ str_of_Z (dapr_port p).

Definition publish_url (p : EventPublisher) : string :=
  base_url p +:+ "/v1.0/publish/" +:+ pubsub_name p.

(** One HTTP POST to the sidecar. *)
Record request : Type := mkrequest { req_url : string; req_json : dict }.

(** What one [client.post] does: answer with a status code or raise. *)
Inductive response : Type :=
  | Status (code : Z)
  | ConnectError
  | TimeoutException
  | OtherException.

(** The sidecar as seen by one call of [publish]: the outcome of the
    attempt of each index. *)
Definition network : Type := Z -> response.

(** The [for attempt in range(retry_count)] loop from index [attempt]
    with [remaining] iterations to go: the returned flag and the requests
    issued, in order. *)
Fixpoint publish_loop (net : network) (req : request) (retry_count : Z)
    (remaining : nat) (attempt : Z) : bool * list request :=
  match remaining with
  | O => (false, [])
  | S remaining' =>
      let continue := publish_loop net req retry_count remaining' (attempt + 1) in
      match net attempt with
      | Status code =>
          if (code =? 200) || (code =? 204) then (true, [req])
          else (fst continue, req :: snd continue)
      | ConnectError =>
          if attempt =? retry_count - 1 then (false, [req])
          else (fst continue, req :: snd continue)
      | TimeoutException | OtherException =>
          (fst continue, req :: snd continue)
      end
  end.

(** [EventPublisher.publish(topic, event, retry_count)]. *)
Definition publish (p : EventPublisher) (net : network) (topic : Topics)
    (event : TaskEvent) (retry_count : Z) : bool * list request :=
  if negb (enabled p) then (true, [])
  else
    let url := publish_url p +:+ "/" +:+ Topics_value topic in
    let payload := to_dict event in
    publish_loop net (mkrequest url payload) retry_count (Z.to_nat retry_count) 0.

(** The default of the [retry_count] argument. *)
Definition default_retry_count : Z := 3.

(** A failed attempt: an exception, or a status other than 200 and 204. *)
Definition failed (r : response) : bool :=
  match r with
  | Status code => negb ((code =? 200) || (code =? 204))
  | _ => true
  end.

(** [publish_to_task_events], [publish_to_reminders] and
    [publish_to_task_updates]: [publish] on a fixed topic with the default
    retry count. *)
Definition publish_to_task_events (p : EventPublisher) (net : network) (event : TaskEvent)
  : bool * list request :=
  publish p net TASK_EVENTS event default_retry_count.

Definition publish_to_reminders (p : EventPublisher) (net : network) (event : TaskEvent)
  : bool * list request :=
  publish p net REMINDERS event default_retry_count.

Definition publish_to_task_updates (p : EventPublisher) (net : network) (event : TaskEvent)
  : bool * list request :=
  publish p net TASK_UPDATES event default_retry_count.

(** [c.lower()] on one character of an ASCII string. *)
Definition lower_ascii (c : ascii) : ascii :=
  let n := nat_of_ascii c in
  if (Nat.leb 65 n && Nat.leb n 90)%bool then ascii_of_nat (n + 32) else c.

(** [s.lower()].  Only the letters A to Z are changed; no character
    outside ASCII lower-cases to a letter of ["true"], ["1"] or ["yes"],
    so the membership test below is not affected by the others. *)
Fixpoint lower (s : string) : string :=
  match s with
  | EmptyString => EmptyString
  | String c s' => String (lower_ascii c) (lower s')
  end.

(** [os.getenv("DAPR_ENABLED", "true").lower() in ("true", "1", "yes")]. *)
Definition dapr_enabled (getenv : string -> option string) : bool :=
  let v := lower (default "true" (getenv "DAPR_ENABLED")) in
  String.eqb v "true" || String.eqb v "1" || String.eqb v "yes".

Section Singleton.

(** Python's [int] on a string ([None] is its [ValueError]). *)
Variable int_of_str : string -> option Z.

(** [get_event_publisher()] on the module global [_publisher]: the
    publisher returned ([None] when [int] raises on the port) and the
    global afterwards.  The [lru_cache] around the function returns what
    the global already holds. *)
Definition get_event_publisher (getenv : string -> option string)
    (_publisher : option EventPublisher)
  : option EventPublisher * option EventPublisher :=
  match _publisher with
  | Some p => (Some p, _publisher)
  | None =>
      match int_of_str (default "3500" (getenv "DAPR_HTTP_PORT")) with
      | None => (None, None)
      | Some dapr_port =>
          let p := mkEventPublisher "localhost" dapr_port "pubsub-kafka"
                                    (dapr_enabled getenv) in
          (Some p, Some p)
      end
  end.

End Singleton.

End Publisher.

(* ===================================================================== *)
(** ** Publishing call sites ([backend/app/routes/tasks.py])              *)
(* ===================================================================== *)

(** The background closures the task routes schedule after their commit.
    Each builds one envelope and hands it to [publish_to_task_events]
    inside a [try] that logs any exception; the model returns the
    requests issued. *)
Module TaskRoutes.
Import Py Schemas Publisher.

(** [publish_completion_event] of [toggle_task_completion]; [completed]
    is the task's flag after the toggle. *)
Definition publish_completion_event (p : EventPublisher) (net : network)
    (dflt : Defaults) (task_id : Z) (user_id title : string) (completed : bool)
  : list request :=
  snd (publish_to_task_events p net
         (TaskCompletedEvent_from_task dflt task_id user_id title completed)).

(** [publish_deleted_event] of [delete_task]. *)
Definition publish_deleted_event (p : EventPublisher) (net : network)
    (dflt : Defaults) (deleted_task_id : Z) (user_id : string) : list request :=
  snd (publish_to_task_events p net (TaskDeletedEvent_from_task dflt deleted_task_id user_id)).

(** The event a consumer receives for a request the sidecar accepted: the
    JSON body of the request. *)
Definition delivered (r : request) : json := JObj (req_json r).

End TaskRoutes.

(* ===================================================================== *)
(** ** Consumer framework: the answer of a delivery endpoint              *)
(* ===================================================================== *)

Module Consumer.

(** The value under ["status"] in the JSON a delivery endpoint returns. *)
Inductive status : Type := SUCCESS | RETRY | SKIP.

Definition status_value (s : status) : string :=
  match s with
  | SUCCESS => "SUCCESS"
  | RETRY => "RETRY"
  | SKIP => "SKIP"
  end.

End Consumer.

(* ===================================================================== *)
(** ** Notification consumer ([services/notification/main.py])            *)
(* ===================================================================== *)

Module Notification.
Import Py Consumer.

(** A live connection object, by identity. *)
Abbreviation WebSocket := nat (only parsing).

(** [ConnectionManager.active_connections]: user id to set of sockets. *)
Abbreviation registry := (gmap string (gset nat)) (only parsing).

(** One [connection.send_json(message)] and whether it went through. *)
Record push : Type := mkpush { push_to : nat; push_message : dict; push_ok : bool }.

(** Which sockets raise on [send_json]. *)
Definition link : Type := nat -> bool.

(** [ConnectionManager.connect]; [accepted = false] is [websocket.accept()]
    raising, which leaves the registry as it was and propagates. *)
Definition connect (accepted : bool) (websocket : WebSocket) (user_id : string)
    (active_connections : registry) : option registry :=
  if negb accepted then None
  else
    let active_connections :=
      match active_connections !! user_id with
      | None => <[user_id := ∅]> active_connections
      | Some _ => active_connections
      end in
    Some (<[user_id := {[websocket]} ∪ default ∅ (active_connections !! user_id)]>
            active_connections).

(** [ConnectionManager.disconnect]. *)
Definition disconnect (websocket : WebSocket) (user_id : string)
    (active_connections : registry) : registry :=
  match active_connections !! user_id with
  | Some conns =>
      let conns' := conns ∖ {[websocket]} in
      if decide (conns' = ∅) then delete user_id active_connections
      else <[user_id := conns']> active_connections
  | None => active_connections
  end.

(** The first loop of [send_to_user]: try every connection, collect the
    ones that raised. *)
Fixpoint send_loop (fails : link) (message : dict) (conns : list nat)
  : gset nat * list push :=
  match conns with
  | [] => (∅, [])
  | connection :: rest =>
      let '(disconnected, pushes) := send_loop fails message rest in
      if fails connection
      then ({[connection]} ∪ disconnected, mkpush connection message false :: pushes)
      else (disconnected, mkpush connection message true :: pushes)
  end.

(** [ConnectionManager.send_to_user]: the registry afterwards and the
    sends attempted. *)
Definition send_to_user (fails : link) (user_id : string) (message : dict)
    (active_connections : registry) : registry * list push :=
  match active_connections !! user_id with
  | Some conns =>
      let '(disconnected, pushes) := send_loop fails message (elements conns) in
      (<[user_id := conns ∖ disconnected]> active_connections, pushes)
  | None => (active_connections, [])
  end.

(** [ConnectionManager.broadcast]: [send_to_user] for every key of a
    snapshot of the registry's keys. *)
Definition broadcast (fails : link) (message : dict)
    (active_connections : registry) : registry * list push :=
  foldl (fun acc user_id =>
           let '(reg, pushes) := send_to_user fails user_id message (fst acc) in
           (reg, snd acc ++ pushes))
        (active_connections, [])
        (elements (dom active_connections)).

(** [send_to_user] called with the [user_id] value of an event.  The
    registry is keyed by the strings of the socket route, so a number or
    boolean is a key that is never present, and a list or dict cannot be
    hashed ([TypeError]). *)
Definition send_to_user_value (fails : link) (user_id : json) (message : dict)
    (active_connections : registry) : option (registry * list push) :=
  match user_id with
  | JStr s => Some (send_to_user fails s message active_connections)
  | JNull | JBool _ | JInt _ => Some (active_connections, [])
  | JList _ | JObj _ => None
  end.

(** The world of one delivery: which sockets fail and the clock's
    [datetime.utcnow().isoformat()]. *)
Record env : Type := mkenv { fails : link; utcnow : string }.

Definition quoted_title (data : dict) : string :=
  "'" +:+ py_str (dict_get "title" data) +:+ "'".

(** The body of [handle_task_events] up to the final answer: the
    notification built for the event, if any. [None] is an exception. *)
Definition build_notification (e : env) (event_type : json) (data : dict)
  : option (option dict) :=
  if eq_str event_type "task.created" then
    Some (Some [("type", JStr "task.created");
                ("title", JStr "New Task Created");
                ("message", JStr ("Task " +:+ quoted_title data +:+ " has been created"));
                ("task_id", dict_get "task_id" data);
                ("timestamp", JStr (utcnow e))])
  else if eq_str event_type "task.completed" then
    Some (Some [("type", JStr "task.completed");
                ("title", JStr "Task Completed");
                ("message", JStr ("Task " +:+ quoted_title data
                                  +:+ " has been marked as complete"));
                ("task_id", dict_get "task_id" data);
                ("timestamp", JStr (utcnow e))])
  else if eq_str event_type "task.uncompleted" then
    Some (Some [("type", JStr "task.uncompleted");
                ("title", JStr "Task Reopened");
                ("message", JStr ("Task " +:+ quoted_title data +:+ " has been reopened"));
                ("task_id", dict_get "task_id" data);
                ("timestamp", JStr (utcnow e))])
  else if eq_str event_type "task.deleted" then
    Some (Some [("type", JStr "task.deleted");
                ("title", JStr "Task Deleted");
                ("message", JStr "A task has been deleted");
                ("task_id", dict_get "task_id" data);
                ("timestamp", JStr (utcnow e))])
  else if eq_str event_type "task.updated" then
    let changes := dict_get_default "changes" (JObj []) data in
    if truthy changes then
      changes_d ← as_dict changes;
      let change_summary := join ", " (map fst changes_d) in
      Some (Some [("type", JStr "task.updated");
                  ("title", JStr "Task Updated");
                  ("message", JStr ("Task updated: " +:+ change_summary));
                  ("task_id", dict_get "task_id" data);
                  ("changes", changes);
                  ("timestamp", JStr (utcnow e))])
    else Some None
  else Some None.

(** The [try] body of [handle_task_events]: answer, registry and sends;
    [None] when it raises. *)
Definition handle_task_events_body (e : env) (event : json)
    (active_connections : registry) : option (status * registry * list push) :=
  event_d ← as_dict event;
  let event_type := dict_get_default "type" (JStr "") event_d in
  data ← as_dict (dict_get_default "data" (JObj []) event_d);
  let user_id := dict_get "user_id" data in
  if negb (truthy user_id) then Some (SKIP, active_connections, [])
  else
    notification ← build_notification e event_type data;
    match notification with
    | Some message =>
        '(reg, pushes) ← send_to_user_value (fails e) user_id message active_connections;
        Some (SUCCESS, reg, pushes)
    | None => Some (SUCCESS, active_connections, [])
    end.

(** [POST /events/task-events]: any exception becomes [RETRY].  An
    exception can only arise before the first send, so no send is
    recorded with it. *)
Definition handle_task_events (e : env) (event : json)
    (active_connections : registry) : status * registry * list push :=
  match handle_task_events_body e event active_connections with
  | Some r => r
  | None => (RETRY, active_connections, [])
  end.

(** [POST /events/reminders]. *)
Definition handle_reminders (e : env) (event : json)
    (active_connections : registry) : status * registry * list push :=
  let body :=
    event_d ← as_dict event;
    data ← as_dict (dict_get_default "data" (JObj []) event_d);
    let user_id := dict_get "user_id" data in
    if negb (truthy user_id) then Some (SKIP, active_connections, [])
    else
      let notification :=
        [("type", JStr "reminder");
         ("title", JStr "Task Reminder");
         ("message", JStr ("Reminder: " +:+ py_str (dict_get "title" data)
                           +:+ " is due soon"));
         ("task_id", dict_get "task_id" data);
         ("due_date", dict_get "due_date" data);
         ("timestamp", JStr (utcnow e))] in
      '(reg, pushes) ← send_to_user_value (fails e) user_id notification active_connections;
      Some (SUCCESS, reg, pushes) in
  match body with
  | Some r => r
  | None => (RETRY, active_connections, [])
  end.

(** [POST /events/task-updates]. *)
Definition handle_task_updates (e : env) (event : json)
    (active_connections : registry) : status * registry * list push :=
  let body :=
    event_d ← as_dict event;
    data ← as_dict (dict_get_default "data" (JObj []) event_d);
    let user_id := dict_get "user_id" data in
    if negb (truthy user_id) then Some (SKIP, active_connections, [])
    else
      let sync_message :=
        [("type", JStr "sync"); ("action", JStr "refresh");
         ("timestamp", JStr (utcnow e))] in
      '(reg, pushes) ← send_to_user_value (fails e) user_id sync_message active_connections;
      Some (SUCCESS, reg, pushes) in
  match body with
  | Some r => r
  | None => (RETRY, active_connections, [])
  end.

(** The event types [handle_task_events] has a notification for. *)
Definition mapped_type (event_type : json) : bool :=
  eq_str event_type "task.created" || eq_str event_type "task.completed" ||
  eq_str event_type "task.uncompleted" || eq_str event_type "task.deleted" ||
  eq_str event_type "task.updated".

(** The registry invariant under discussion: no user is registered with
    an empty set of connections. *)
Definition no_empty_entry (active_connections : registry) : Prop :=
  forall user_id conns, active_connections !! user_id = Some conns -> conns ≠ ∅.

(** A registry [reg'] keeps nothing that [reg] does not have: the same
    users, and for each no connection beyond those it had. *)
Definition only_drops (reg reg' : gmap string (gset nat)) : Prop :=
  dom reg' = dom reg /\
  forall user_id conns', reg' !! user_id = Some conns' ->
    exists conns, reg !! user_id = Some conns /\ conns' ⊆ conns.

(** What a delivery handler may do, whatever it answers. *)
Definition well_behaved (event : json) (reg : gmap string (gset nat))
    (r : status * gmap string (gset nat) * list push) : Prop :=
  only_drops reg r.1.2 /\
  forall p, p ∈ r.2 ->
    exists event_d data user_id conns,
      event = JObj event_d /\
      dict_get_default "data" (JObj []) event_d = JObj data /\
      dict_get "user_id" data = JStr user_id /\
      reg !! user_id = Some conns /\ push_to p ∈ conns.

End Notification.

(* ===================================================================== *)
(** ** Audit consumer ([services/audit/main.py])                          *)
(* ===================================================================== *)

Module Audit.
Import Py Consumer.

(** [s.replace("Z", "+00:00")]. *)
Fixpoint replace_Z (s : string) : string :=
  match s with
  | EmptyString => EmptyString
  | String c s' =>
      if Ascii.eqb c "Z"%char then "+00:00" +:+ replace_Z s'
      else String c (replace_Z s')
  end.

(** [a or b]. *)
Definition py_or (a b : json) : json := if truthy a then a else b.

(** One arm of an [if]/[elif] chain testing [lit in v]: [None] is the
    [TypeError] of [in] on a value that is not iterable. *)
Definition elif_in (lit : string) (v : json) (val : string) (rest : option string)
  : option string :=
  match str_in lit v with
  | None => None
  | Some true => Some val
  | Some false => rest
  end.

(** The chain that derives the action from the event type, in the order
    of the source. *)
Definition derive_action (event_type : json) : option string :=
  elif_in "created" event_type "created"
  (elif_in "updated" event_type "updated"
  (elif_in "deleted" event_type "deleted"
  (elif_in "completed" event_type "completed"
  (elif_in "uncompleted" event_type "uncompleted"
  (Some "unknown"))))).

(** The chain that derives the entity type. *)
Definition derive_entity_type (event_type : json) : option string :=
  elif_in "task" event_type "task"
  (elif_in "reminder" event_type "reminder"
  (elif_in "conversation" event_type "conversation"
  (Some "unknown"))).

(** [{k: v.get(side) for k, v in changes.items() if isinstance(v, dict)}]. *)
Fixpoint change_side (side : string) (changes : dict) : dict :=
  match changes with
  | [] => []
  | (k, JObj v) :: rest => (k, dict_get side v) :: change_side side rest
  | _ :: rest => change_side side rest
  end.

Section WithLibraries.

(** [datetime] values, [datetime.fromisoformat] and [json.dumps] belong to
    the Python library; the consumer only stores what they return. *)
Variable datetime : Type.
Variable datetime_fromisoformat : string -> option datetime.
Variable json_dumps : json -> string.

(** [class AuditLog(SQLModel, table=True)] before the insert assigns its
    [id].  A table model is built without validation, so a field holds
    whatever value the event carried. *)
Record AuditLog : Type := mkAuditLog {
  event_id : json;
  event_type : json;
  topic : string;
  user_id : json;
  entity_type : string;
  entity_id : json;
  action : string;
  old_data : option string;
  new_data : option string;
  event_metadata : option string;
  source : json;
  timestamp : datetime;
  created_at : datetime
}.

(** [json.dumps(v) if v else None]. *)
Definition dumps_if (v : json) : option string :=
  if truthy v then Some (json_dumps v) else None.

(** The [old_data]/[new_data] snapshots before serialisation (JSON null
    for Python's [None]): the two sides of the change-set of an update
    event that has one, the payload itself for a created event. *)
Definition extract_changes (action : string) (data : json) : option (json * json) :=
  if String.eqb action "updated" then
    match str_in "changes" data with
    | None => None
    | Some true =>
        match as_dict data with
        | None => None
        | Some data_d =>
            match as_dict (dict_get_default "changes" (JObj []) data_d) with
            | None => None
            | Some changes =>
                Some (JObj (change_side "old" changes), JObj (change_side "new" changes))
            end
        end
    | Some false => Some (JNull, JNull)
    end
  else if String.eqb action "created" then Some (JNull, data)
  else Some (JNull, JNull).

(** The [timestamp] argument: the event's [time] parsed when it has a
    truthy one ([AttributeError] unless it is a string, [ValueError]
    unless it parses), else the clock. *)
Definition event_timestamp (utcnow : datetime) (event_d : dict) : option datetime :=
  if truthy (dict_get "time" event_d) then
    match dict_get_default "time" (JStr "") event_d with
    | JStr s => datetime_fromisoformat (replace_Z s)
    | _ => None
    end
  else Some utcnow.

(** [parse_event_to_audit(event, topic)] at clock reading [utcnow];
    [None] when it raises. *)
Definition parse_event_to_audit (utcnow : datetime) (event : json) (topic : string)
  : option AuditLog :=
  event_d ← as_dict event;
  let event_type := dict_get_default "type" (JStr "unknown") event_d in
  let data := dict_get_default "data" (JObj []) event_d in
  action ← derive_action event_type;
  entity_type ← derive_entity_type event_type;
  snapshots ← extract_changes action data;
  data_d ← as_dict data;
  timestamp ← event_timestamp utcnow event_d;
  Some {| event_id := dict_get_default "id" (JStr "") event_d;
          event_type := event_type;
          topic := topic;
          user_id := dict_get "user_id" data_d;
          entity_type := entity_type;
          entity_id := py_or (dict_get "task_id" data_d) (dict_get "entity_id" data_d);
          action := action;
          old_data := dumps_if (fst snapshots);
          new_data := dumps_if (snd snapshots);
          event_metadata := dumps_if (dict_get "metadata" event_d);
          source := dict_get_default "source" (JStr "backend") event_d;
          timestamp := timestamp;
          created_at := utcnow |}.

(** The module-level [engine]: [None] when no database is configured (or
    the connection failed at startup), else the rows of [audit_log] in
    insertion order. *)
Definition engine : Type := option (list AuditLog).

(** [save_audit_log(audit)]; [insert_raises] says whether the session's
    add-and-commit raises this time. *)
Definition save_audit_log (insert_raises : bool) (audit : AuditLog) (eng : engine)
  : bool * engine :=
  match eng with
  | None => (false, eng)
  | Some rows =>
      if insert_raises then (false, eng)
      else (true, Some (rows ++ [audit]))
  end.

(** The three delivery endpoints differ in the topic name only. *)
Definition handle (topic : string) (utcnow : datetime) (insert_raises : bool)
    (event : json) (eng : engine) : status * engine :=
  match parse_event_to_audit utcnow event topic with
  | Some audit =>
      let '(_, eng') := save_audit_log insert_raises audit eng in
      (SUCCESS, eng')
  | None => (RETRY, eng)
  end.

(** [POST /events/task-events]. *)
Definition handle_task_events := handle "task-events".
(** [POST /events/reminders]. *)
Definition handle_reminders := handle "reminders".
(** [POST /events/task-updates]. *)
Definition handle_task_updates := handle "task-updates".

(** One delivery to the audit consumer: the topic of the endpoint called,
    the clock, whether the insert raises this time, and the event. *)
Record delivery : Type := mkdelivery {
  d_topic : string;
  d_utcnow : datetime;
  d_insert_raises : bool;
  d_event : json
}.

(** The consumer run on a sequence of deliveries: the answers given, in
    order, and the log afterwards. *)
Fixpoint deliver_all (ds : list delivery) (eng : engine) : list status * engine :=
  match ds with
  | [] => ([], eng)
  | d :: rest =>
      let '(answer, eng') :=
        handle (d_topic d) (d_utcnow d) (d_insert_raises d) (d_event d) eng in
      let '(answers, eng'') := deliver_all rest eng' in
      (answer :: answers, eng'')
  end.

End WithLibraries.

Arguments event_id {datetime}.
Arguments event_type {datetime}.
Arguments action {datetime}.
Arguments entity_type {datetime}.

End Audit.

(* ===================================================================== *)
(** ** Recurrence consumer ([services/recurring/main.py])                 *)
(* ===================================================================== *)

Module Recurring.
Import Py PyDate Consumer.

Inductive RecurrencePattern : Type := DAILY | WEEKLY | BIWEEKLY | MONTHLY | YEARLY.

Definition RecurrencePattern_value (p : RecurrencePattern) : string :=
  match p with
  | DAILY => "daily" | WEEKLY => "weekly" | BIWEEKLY => "biweekly"
  | MONTHLY => "monthly" | YEARLY => "yearly"
  end.

(** [class RecurrenceConfig(BaseModel)]. *)
Record RecurrenceConfig : Type := mkRecurrenceConfig {
  pattern : RecurrencePattern;
  interval : Z;
  end_date : option string;
  max_occurrences : option Z;
  occurrences_created : Z
}.

(** [calculate_next_due_date]; [None] is the [OverflowError] or
    [ValueError] of a date outside the years 1 to 9999.  The pattern is a
    member of the enumeration, so the final [else] of the source is never
    taken.  [timedelta(weeks=w)] is [7 * w] days. *)
Definition calculate_next_due_date (current_due_date : date)
    (pattern : RecurrencePattern) (interval : Z) : option date :=
  match pattern with
  | DAILY => add_days current_due_date interval
  | WEEKLY => add_days current_due_date (7 * interval)
  | BIWEEKLY => add_days current_due_date (7 * (2 * interval))
  | MONTHLY => add_relativedelta current_due_date (relativedelta_months interval)
  | YEARLY => add_relativedelta current_due_date (relativedelta_years interval)
  end.

(** The period of the patterns that count in days. *)
Definition period_days (p : RecurrencePattern) : option Z :=
  match p with
  | DAILY => Some 1
  | WEEKLY => Some 7
  | BIWEEKLY => Some 14
  | MONTHLY | YEARLY => None
  end.

(** The value kept in the state store under one key.  Every writer of the
    store ([set_recurrence] and [handle_task_events]) writes a validated
    configuration, the template dict, and, after a spawn, the id of the
    task the state was carried over from. *)
Record RecurrenceState : Type := mkRecurrenceState {
  config : RecurrenceConfig;
  task_data : dict;
  parent_task_id : option json
}.

(** The state store: key to recurrence state. *)
Abbreviation statestore := (gmap string RecurrenceState) (only parsing).

(** The key [f"recurrence-{task_id}"]. *)
Definition state_key (task_id : json) : string := "recurrence-" +:+ py_str task_id.

(** The keyword arguments of one call of [create_next_task]. *)
Record next_task_call : Type := mknext_task_call {
  call_user_id : json;
  call_title : json;
  call_description : json;
  call_priority : json;
  call_category : json;
  call_due_date : date
}.

(** The JSON body [create_next_task] posts to the backend. *)
Definition posted_task_data (c : next_task_call) : dict :=
  [("title", call_title c);
   ("description", call_description c);
   ("priority", call_priority c);
   ("category", call_category c);
   ("due_date", JStr (isoformat (call_due_date c)))].

(** The world of one delivery: the clock's [date.today()], whether the
    sidecar answers each kind of state request with success (a failed
    request is an exception or a status other than 200/204, which the
    three state helpers turn into [None] or [False]), and the backend:
    [create_next_task] returns the body of a 201 answer and [None] for
    any other status or an exception. *)
Record env : Type := mkenv {
  today : date;
  get_ok : bool;
  save_ok : bool;
  delete_ok : bool;
  create_next_task : next_task_call -> option json
}.

(** [get_recurrence_state(task_id)]. *)
Definition get_recurrence_state (e : env) (task_id : json) (store : statestore)
  : option RecurrenceState :=
  if get_ok e then store !! state_key task_id else None.

(** [save_recurrence_state(task_id, state)]. *)
Definition save_recurrence_state (e : env) (task_id : json) (state : RecurrenceState)
    (store : statestore) : bool * statestore :=
  if save_ok e then (true, <[state_key task_id := state]> store) else (false, store).

(** [delete_recurrence_state(task_id)]. *)
Definition delete_recurrence_state (e : env) (task_id : json) (store : statestore)
  : bool * statestore :=
  if delete_ok e then (true, delete (state_key task_id) store) else (false, store).

(** [if config.end_date: ... date.today() > end_date]: [None] when the
    end date does not parse, else whether the recurrence is past it. *)
Definition past_end_date (e : env) (cfg : RecurrenceConfig) : option bool :=
  match end_date cfg with
  | Some s =>
      if String.eqb s "" then Some false
      else match fromisoformat s with
           | Some d => Some (date_gt (today e) d)
           | None => None
           end
  | None => Some false
  end.

(** [config.max_occurrences and config.occurrences_created >= config.max_occurrences]. *)
Definition max_reached (cfg : RecurrenceConfig) : bool :=
  match max_occurrences cfg with
  | Some m => negb (m =? 0) && (m <=? occurrences_created cfg)
  | None => false
  end.

(** [date.fromisoformat(task_data.get("due_date", date.today().isoformat()))]:
    [TypeError] unless the value is a string. *)
Definition current_due_date (e : env) (task_data : dict) : option date :=
  match dict_get_default "due_date" (JStr (isoformat (today e))) task_data with
  | JStr s => fromisoformat s
  | _ => None
  end.

(** The dict [new_state] of the handler. *)
Definition next_state (cfg : RecurrenceConfig) (task_data : dict) (next_due : date)
    (task_id : json) : RecurrenceState :=
  {| config := {| pattern := pattern cfg;
                  interval := interval cfg;
                  end_date := end_date cfg;
                  max_occurrences := max_occurrences cfg;
                  occurrences_created := occurrences_created cfg + 1 |};
     task_data := dict_set "due_date" (JStr (isoformat next_due)) task_data;
     parent_task_id := Some task_id |}.

(** The call of [create_next_task] the handler makes: the template's
    fields with their defaults, and the computed due date. *)
Definition next_call (user_id : json) (task_data : dict) (next_due : date)
  : next_task_call :=
  {| call_user_id := user_id;
     call_title := dict_get_default "title" (JStr "Recurring Task") task_data;
     call_description := dict_get "description" task_data;
     call_priority := dict_get_default "priority" (JStr "medium") task_data;
     call_category := dict_get_default "category" (JStr "other") task_data;
     call_due_date := next_due |}.

(** What a delivery leaves behind: the answer, the state store, and the
    calls of [create_next_task] made. *)
Record outcome : Type := mkoutcome {
  answer : status;
  store_after : gmap string RecurrenceState;
  calls : list next_task_call
}.

(** The [if should_create:] block, reached with [should_create] true. *)
Definition spawn_next (e : env) (task_id user_id : json) (st : RecurrenceState)
    (store : statestore) : outcome :=
  let cfg := config st in
  let task_data := task_data st in
  match current_due_date e task_data with
  | None => mkoutcome RETRY store []
  | Some current_due =>
      match calculate_next_due_date current_due (pattern cfg) (interval cfg) with
      | None => mkoutcome RETRY store []
      | Some next_due =>
          let call := next_call user_id task_data next_due in
          match create_next_task e call with
          | Some new_task =>
              if truthy new_task then
                match as_dict new_task with
                | Some new_task_d =>
                    let new_state := next_state cfg task_data next_due task_id in
                    let '(_, store') :=
                      save_recurrence_state e (dict_get "id" new_task_d) new_state store in
                    mkoutcome SUCCESS store' [call]
                | None => mkoutcome RETRY store [call]
                end
              else mkoutcome SUCCESS store [call]
          | None => mkoutcome SUCCESS store [call]
          end
      end
  end.

(** [POST /events/task-events]. *)
Definition handle_task_events (e : env) (event : json) (store : statestore) : outcome :=
  match as_dict event with
  | None => mkoutcome RETRY store []
  | Some event_d =>
      let event_type := dict_get_default "type" (JStr "") event_d in
      if negb (eq_str event_type "task.completed") then mkoutcome SUCCESS store []
      else
        match as_dict (dict_get_default "data" (JObj []) event_d) with
        | None => mkoutcome RETRY store []
        | Some data =>
            let task_id := dict_get "task_id" data in
            let user_id := dict_get "user_id" data in
            let completed := dict_get_default "completed" (JBool false) data in
            if negb (truthy completed) || negb (truthy task_id) || negb (truthy user_id)
            then mkoutcome SUCCESS store []
            else
              match get_recurrence_state e task_id store with
              | None => mkoutcome SUCCESS store []
              | Some recurrence_state =>
                  let cfg := config recurrence_state in
                  match past_end_date e cfg with
                  | None => mkoutcome RETRY store []
                  | Some past =>
                      let store1 :=
                        if past then snd (delete_recurrence_state e task_id store)
                        else store in
                      let should_create := negb past in
                      let reached := max_reached cfg in
                      let store2 :=
                        if reached then snd (delete_recurrence_state e task_id store1)
                        else store1 in
                      let should_create := should_create && negb reached in
                      if should_create
                      then spawn_next e task_id user_id recurrence_state store2
                      else mkoutcome SUCCESS store2 []
                  end
              end
        end
  end.

(** The body of [SetRecurrenceRequest]. *)
Record SetRecurrenceRequest : Type := mkSetRecurrenceRequest {
  req_task_id : Z;
  req_pattern : RecurrencePattern;
  req_interval : Z;
  req_end_date : option string;
  req_max_occurrences : option Z;
  req_task_data : dict
}.

(** [POST /recurrence]: the HTTP status answered and the store. *)
Definition set_recurrence (e : env) (request : SetRecurrenceRequest) (store : statestore)
  : Z * statestore :=
  let state :=
    {| config := {| pattern := req_pattern request;
                    interval := req_interval request;
                    end_date := req_end_date request;
                    max_occurrences := req_max_occurrences request;
                    occurrences_created := 0 |};
       task_data := req_task_data request;
       parent_task_id := None |} in
  let '(success, store') := save_recurrence_state e (JInt (req_task_id request)) state store in
  if success then (200, store') else (500, store').

(** [GET /recurrence/{task_id}]: the state, or [None] for the 404. *)
Definition get_recurrence (e : env) (task_id : Z) (store : statestore)
  : option RecurrenceState :=
  get_recurrence_state e (JInt task_id) store.

(** [DELETE /recurrence/{task_id}]. *)
Definition remove_recurrence (e : env) (task_id : Z) (store : statestore)
  : Z * statestore :=
  let '(success, store') := delete_recurrence_state e (JInt task_id) store in
  if success then (200, store') else (500, store').

(** The end conditions of a state do not hold: the handler goes on to
    spawn the next occurrence. *)
Definition active (e : env) (cfg : RecurrenceConfig) : Prop :=
  past_end_date e cfg = Some false /\ max_reached cfg = false.

(** A delivery that the handler processes: a [task.completed] event whose
    payload has a true [completed] flag, a task id and a user id. *)
Definition completion_event (event : json) (task_id user_id : json) : Prop :=
  exists event_d data,
    event = JObj event_d /\
    eq_str (dict_get_default "type" (JStr "") event_d) "task.completed" = true /\
    dict_get_default "data" (JObj []) event_d = JObj data /\
    dict_get "task_id" data = task_id /\
    dict_get "user_id" data = user_id /\
    truthy (dict_get_default "completed" (JBool false) data) = true /\
    truthy task_id = true /\
    truthy user_id = true.

(** What one delivery may do to the store [store], stated for an outcome. *)
Definition footprint (e : env) (event : json) (store : gmap string RecurrenceState)
    (o : outcome) : Prop :=
  (answer o = SUCCESS \/ answer o = RETRY) /\
  (length (calls o) <= 1)%nat /\
  (answer o = RETRY -> store_after o = store) /\
  (store_after o <> store \/ calls o <> [] ->
   exists task_id user_id st,
     completion_event event task_id user_id /\ store !! state_key task_id = Some st) /\
  (forall k,
     store_after o !! k <> store !! k ->
     (exists task_id user_id,
        completion_event event task_id user_id /\ k = state_key task_id) \/
     (exists c new_task,
        calls o = [c] /\
        create_next_task e c = Some (JObj new_task) /\
        k = state_key (dict_get "id" new_task))).

End Recurring.

(* ===================================================================== *)
(** ** Scenarios of the specification                                     *)
(* ===================================================================== *)

(** The concrete events, templates and worlds the testable properties of
    the specification are phrased with. *)
Module Scenario.
Import Py PyDate Recurring.

(** A created-task event as it reaches the audit consumer. *)
Definition sample_created_event : json :=
  JObj [("id", JStr "e1"); ("type", JStr "task.created");
        ("data", JObj [("task_id", JInt 42); ("user_id", JStr "u1");
                       ("title", JStr "Standup")])].

Definition standup_template : dict :=
  [("title", JStr "Standup"); ("priority", JStr "medium");
   ("category", JStr "work"); ("due_date", JStr "2026-02-01")].

Definition standup_request : SetRecurrenceRequest :=
  mkSetRecurrenceRequest 42 DAILY 1 None None standup_template.

(** A backend that answers 201 with the new task, id 43. *)
Definition backend_up (c : next_task_call) : option json :=
  Some (JObj (("id", JInt 43) :: ("user_id", call_user_id c) :: posted_task_data c)).

(** A backend that cannot be reached, or answers with an error status. *)
Definition backend_down (c : next_task_call) : option json := None.

Definition world (backend : next_task_call -> option json) : env :=
  mkenv (mkdate 2026 2 1) true true true backend.

(** The same day with a state store that reads and deletes but refuses
    every write, in front of a backend that is up. *)
Definition world_write_refused : env :=
  mkenv (mkdate 2026 2 1) true false true backend_up.

Definition completed_42 : json :=
  JObj (Schemas.to_dict
          (Schemas.TaskCompletedEvent_from_task
             (Schemas.mkDefaults "e-42" "2026-02-01T18:00:00Z") 42 "u1" "Standup" true)).

Definition store_42 : gmap string RecurrenceState :=
  snd (set_recurrence (world backend_up) standup_request ∅).

Definition state_42 : RecurrenceState :=
  mkRecurrenceState (mkRecurrenceConfig DAILY 1 None None 0) standup_template None.

(** The weekly state of the specification's example. *)
Definition weekly_state : RecurrenceState :=
  mkRecurrenceState (mkRecurrenceConfig WEEKLY 1 None None 0)
    [("title", JStr "Review"); ("due_date", JStr "2026-01-01")] None.

(** A state that has produced its single occurrence. *)
Definition exhausted_state : RecurrenceState :=
  mkRecurrenceState (mkRecurrenceConfig DAILY 1 None (Some 1) 1) standup_template None.

End Scenario.

(* ===================================================================== *)
(** * Properties                                                          *)
(* ===================================================================== *)

(** ** Envelope and publisher *)

Module SchemasFacts.
Import Py Schemas.

(** Parsing the dumped envelope gives the envelope back, whatever the
    default factories would have produced. *)
Lemma parse_to_dict (dflt : Defaults) (e : TaskEvent) :
  TaskEvent_parse dflt (to_dict e) = Some e.
Proof. destruct e; reflexivity. Qed.

(** The dump has exactly the eight keys of the model, in field order. *)
Lemma to_dict_keys (e : TaskEvent) :
  map fst (to_dict e) =
  ["specversion"; "id"; "source"; "type"; "datacontenttype"; "time"; "version"; "data"].
Proof. reflexivity. Qed.

(** C7. Round-trip law of the envelope: for every envelope, [to_dict]
    (that is [model_dump]) followed by parsing yields an envelope with the
    same [type], [data] and [id]. *)
Theorem to_dict_parse_roundtrip (dflt : Defaults) (e : TaskEvent) :
  exists e', TaskEvent_parse dflt (to_dict e) = Some e' /\
             type e' = type e /\ data e' = data e /\ id e' = id e.
Proof. exists e. rewrite parse_to_dict. auto. Qed.

(** The round trip on an event the backend builds on completion. *)
Example completed_event_roundtrip :
  let dflt := mkDefaults "0b5c" "2026-02-01T09:00:00Z" in
  let e := TaskCompletedEvent_from_task dflt 42 "u1" "Standup" true in
  TaskEvent_parse (mkDefaults "other" "later") (to_dict e) = Some e /\
  type e = "task.completed".
Proof. split; reflexivity. Qed.

End SchemasFacts.

Module PublisherFacts.
Import Py Schemas Publisher.

(** When every attempt fails the loop runs to its end: it returns [false]
    after exactly the remaining number of requests. *)
Lemma publish_loop_all_fail (net : network) (req : request) (retry_count : Z) :
  (forall k, failed (net k) = true) ->
  forall (remaining : nat) (attempt : Z),
    0 <= attempt ->
    attempt + Z.of_nat remaining = Z.max 0 retry_count ->
    fst (publish_loop net req retry_count remaining attempt) = false /\
    length (snd (publish_loop net req retry_count remaining attempt)) = remaining.
Proof.
  intros Hfail remaining.
  induction remaining as [|r IH]; intros attempt Hge Hsum; [now cbn|].
  assert (Hnext : fst (publish_loop net req retry_count r (attempt + 1)) = false /\
                  length (snd (publish_loop net req retry_count r (attempt + 1))) = r)
    by (apply IH; lia).
  destruct Hnext as [Hf Hl].
  cbn [publish_loop]. specialize (Hfail attempt).
  destruct (net attempt) as [code| | |]; cbn [failed] in Hfail.
  - apply negb_true_iff in Hfail. rewrite Hfail. cbn. now rewrite Hl.
  - destruct (Z.eqb_spec attempt (retry_count - 1)) as [Heq|Hne]; cbn.
    + split; [reflexivity|]. f_equal. lia.
    + now rewrite Hl.
  - cbn. now rewrite Hl.
  - cbn. now rewrite Hl.
Qed.

(** C8. A publisher whose [enabled] flag is false answers [True] for
    every topic, envelope and retry count, and issues no request. *)
Theorem publish_disabled (p : EventPublisher) (net : network) (topic : Topics)
    (event : TaskEvent) (retry_count : Z) :
  enabled p = false ->
  publish p net topic event retry_count = (true, []).
Proof. intros H. unfold publish. now rewrite H. Qed.

(** The disabled default publisher on the task-events topic. *)
Lemma publish_disabled_witness :
  publish (default_publisher false) (fun _ => Status 200) TASK_EVENTS
          (TaskDeletedEvent_from_task (mkDefaults "id-1" "2026-02-01T09:00:00Z") 42 "u1")
          default_retry_count = (true, []).
Proof. apply publish_disabled. reflexivity. Defined.

(** C9. With publishing enabled, if every attempt fails (connection
    error, timeout, other exception, or a status other than 200/204),
    [publish] returns [False] after at most [retry_count] requests (exactly
    [retry_count] of them when that is not negative, so three by default).
    The function is total: no exception reaches the caller. *)
Theorem publish_all_attempts_fail (p : EventPublisher) (net : network) (topic : Topics)
    (event : TaskEvent) (retry_count : Z) :
  enabled p = true ->
  (forall k, failed (net k) = true) ->
  fst (publish p net topic event retry_count) = false /\
  Z.of_nat (length (snd (publish p net topic event retry_count))) = Z.max 0 retry_count /\
  (Z.of_nat (length (snd (publish p net topic event retry_count))) <= Z.max 0 retry_count) /\
  (retry_count = default_retry_count ->
   length (snd (publish p net topic event retry_count)) = 3%nat).
Proof.
  intros Hen Hfail. unfold publish. rewrite Hen. cbn [negb].
  destruct (publish_loop_all_fail net
              (mkrequest (publish_url p +:+ "/" +:+ Topics_value topic) (to_dict event))
              retry_count Hfail (Z.to_nat retry_count) 0) as [Hf Hl]; [lia|lia|].
  rewrite Hf, Hl. repeat split; try lia.
  intros ->. reflexivity.
Qed.

(** Three failing attempts: connection error, status 500, connection
    error. *)
Lemma publish_all_attempts_fail_witness :
  let p := default_publisher true in
  let net := fun k : Z => if k =? 1 then Status 500 else ConnectError in
  let event := TaskDeletedEvent_from_task (mkDefaults "id-1" "2026-02-01T09:00:00Z") 42 "u1" in
  fst (publish p net TASK_EVENTS event 3) = false /\
  Z.of_nat (length (snd (publish p net TASK_EVENTS event 3))) = Z.max 0 3 /\
  (Z.of_nat (length (snd (publish p net TASK_EVENTS event 3))) <= Z.max 0 3) /\
  (3 = default_retry_count -> length (snd (publish p net TASK_EVENTS event 3)) = 3%nat).
Proof.
  apply publish_all_attempts_fail.
  - reflexivity.
  - intros k. destruct (k =? 1); reflexivity.
Defined.

(** A success on a later attempt ends the loop at once with [True]. *)
Example publish_second_attempt :
  publish (default_publisher true)
          (fun k => if k =? 0 then TimeoutException else Status 204)
          REMINDERS
          (TaskDeletedEvent_from_task (mkDefaults "id-1" "t") 7 "u1") 3
  = (true,
     let r := mkrequest "http://localhost:3500/v1.0/publish/pubsub-kafka/reminders"
                (to_dict (TaskDeletedEvent_from_task (mkDefaults "id-1" "t") 7 "u1")) in
     [r; r]).
Proof. vm_compute. reflexivity. Qed.

End PublisherFacts.

(** ** Audit consumer *)

Module AuditFacts.
Import Py Consumer Audit Scenario.

Lemma startswith_contains (p s : string) :
  startswith p s = true -> str_contains p s = true.
Proof. intros H. destruct s; cbn [str_contains]; now rewrite H. Qed.

Lemma str_contains_tail (p : string) (c : ascii) (s : string) :
  str_contains p s = true -> str_contains p (String c s) = true.
Proof.
  intros H. cbn [str_contains]. destruct (startswith p (String c s)); [reflexivity|exact H].
Qed.

(** Every occurrence of ["uncompleted"] carries one of ["completed"], two
    characters further on. *)
Lemma uncompleted_contains_completed (s : string) :
  str_contains "uncompleted" s = true -> str_contains "completed" s = true.
Proof.
  induction s as [|c s IH]; [discriminate|].
  cbn [str_contains].
  destruct (startswith "uncompleted" (String c s)) eqn:Hp.
  - intros _.
    cbn [startswith] in Hp.
    destruct (Ascii.eqb "u" c); [|discriminate].
    destruct s as [|c2 rest]; [discriminate|].
    destruct (Ascii.eqb "n" c2); [|discriminate].
    assert (Hrest : startswith "completed" rest = true) by exact Hp.
    destruct (startswith "completed" (String c (String c2 rest))); [reflexivity|].
    apply str_contains_tail. now apply startswith_contains.
  - intros H. destruct (startswith "completed" (String c s)); [reflexivity|].
    now apply IH.
Qed.

(** On an event type that is a string, the ["uncompleted"] arm of the
    chain is never taken. *)
Lemma derive_action_never_uncompleted (s : string) :
  derive_action (JStr s) <> Some "uncompleted".
Proof.
  unfold derive_action, elif_in, str_in.
  destruct (str_contains "created" s); [discriminate|].
  destruct (str_contains "updated" s); [discriminate|].
  destruct (str_contains "deleted" s); [discriminate|].
  destruct (str_contains "completed" s) eqn:Hc; [discriminate|].
  destruct (str_contains "uncompleted" s) eqn:Hu; [|discriminate].
  apply uncompleted_contains_completed in Hu. congruence.
Qed.

(** C5. The action derived for the event types of the enumeration: the
    four types ["task.created"], ["task.updated"], ["task.deleted"] and
    ["task.completed"] map to their own action, while ["task.uncompleted"]
    is recorded as ["completed"], because the test for ["completed"]
    comes first in the chain and matches it; on strings the action
    ["uncompleted"] is never produced. *)
Theorem derive_action_uncompleted_is_completed :
  derive_action (JStr "task.created") = Some "created" /\
  derive_action (JStr "task.updated") = Some "updated" /\
  derive_action (JStr "task.deleted") = Some "deleted" /\
  derive_action (JStr "task.completed") = Some "completed" /\
  derive_action (JStr "task.uncompleted") = Some "completed" /\
  (forall s, derive_action (JStr s) <> Some "uncompleted").
Proof.
  repeat split; try reflexivity. exact derive_action_never_uncompleted.
Qed.

Section WithLibraries.

Variable datetime : Type.
Variable datetime_fromisoformat : string -> option datetime.
Variable json_dumps : json -> string.

Let parse := parse_event_to_audit datetime datetime_fromisoformat json_dumps.
Let handle := Audit.handle datetime datetime_fromisoformat json_dumps.

(** The audit entry takes its action from [derive_action]. *)
Lemma parse_action (utcnow : datetime) (event_d : dict) (topic : string)
    (audit : AuditLog datetime) :
  parse utcnow (JObj event_d) topic = Some audit ->
  derive_action (dict_get_default "type" (JStr "unknown") event_d) = Some (action audit).
Proof.
  unfold parse, parse_event_to_audit. cbn [as_dict mbind option_bind].
  destruct (derive_action _) as [a|]; [|discriminate]. cbn.
  destruct (derive_entity_type _); [|discriminate]. cbn.
  destruct (extract_changes _ _); [|discriminate]. cbn.
  destruct (as_dict _); [|discriminate]. cbn.
  destruct (event_timestamp _ _ _ _); [|discriminate]. cbn.
  intros [= <-]. reflexivity.
Qed.

(** What a delivery does to the log, given whether the entry could be
    derived. *)
Lemma handle_cases (topic : string) (utcnow : datetime) (insert_raises : bool)
    (event : json) (eng : engine datetime) :
  match parse utcnow event topic with
  | Some audit =>
      handle topic utcnow insert_raises event eng =
      (SUCCESS,
       match eng with
       | Some rows => if insert_raises then Some rows else Some (rows ++ [audit])
       | None => None
       end)
  | None => handle topic utcnow insert_raises event eng = (RETRY, eng)
  end.
Proof.
  unfold handle, Audit.handle, parse.
  destruct (parse_event_to_audit _ _ _ _ _ _) as [audit|]; [|reflexivity].
  unfold save_audit_log. destruct eng as [rows|]; [|reflexivity].
  destruct insert_raises; reflexivity.
Qed.

(** C3, as the code has it. The delivery is answered [RETRY] exactly when
    deriving the audit entry raises. Once the entry is derived the answer
    is [SUCCESS] in every case: the insert went through (the row is
    appended), the insert threw (caught inside [save_audit_log]; the log
    is unchanged), or no store is configured. *)
Theorem audit_answer (topic : string) (utcnow : datetime) (insert_raises : bool)
    (event : json) (eng : engine datetime) :
  (fst (handle topic utcnow insert_raises event eng) = RETRY <->
   parse utcnow event topic = None) /\
  (forall audit, parse utcnow event topic = Some audit ->
     handle topic utcnow insert_raises event eng =
     (SUCCESS,
      match eng with
      | Some rows => if insert_raises then Some rows else Some (rows ++ [audit])
      | None => None
      end)).
Proof.
  pose proof (handle_cases topic utcnow insert_raises event eng) as H.
  destruct (parse utcnow event topic) as [audit|].
  - rewrite H. split.
    + cbn. split; discriminate.
    + intros a [= <-]. reflexivity.
  - rewrite H. split.
    + cbn. split; reflexivity.
    + discriminate.
Qed.

End WithLibraries.

(** C3, as stated, fails: the insert throws and the answer is [SUCCESS],
    not [RETRY]. *)
Lemma insert_raises_answers_success :
  let r := handle_task_events unit (fun _ => Some tt) (fun _ => "{}") tt true
             sample_created_event (Some []) in
  fst r = SUCCESS /\ fst r <> RETRY /\ snd r = Some [].
Proof. vm_compute. repeat split. discriminate. Qed.

(** The un-completion event the backend publishes is audited with the
    action ["completed"]. *)
Example uncompleted_event_audited_as_completed :
  let event :=
    JObj (Schemas.to_dict
            (Schemas.TaskCompletedEvent_from_task (Schemas.mkDefaults "e2" "")
               42 "u1" "Standup" false)) in
  option_map action
    (parse_event_to_audit unit (fun _ => Some tt) (fun _ => "{}") tt event "task-events")
  = Some "completed".
Proof. vm_compute. reflexivity. Qed.

End AuditFacts.

(** ** Notification consumer *)

Module NotificationFacts.
Import Py Consumer Notification.

(** *** The delivery handler *)

(** An event type without a mapping builds no notification. *)
Lemma build_notification_unmapped (e : env) (event_type : json) (data : dict) :
  mapped_type event_type = false ->
  build_notification e event_type data = Some None.
Proof.
  unfold mapped_type, build_notification. intros H.
  repeat (apply orb_false_iff in H; destruct H as [H ?]).
  repeat match goal with Heq : eq_str _ _ = false |- _ => rewrite Heq; clear Heq end.
  reflexivity.
Qed.

(** C4, as stated, fails: an event whose data has no user id is answered
    ["SKIP"], which is neither [SUCCESS] nor [RETRY]. *)
Lemma missing_user_id_answers_skip :
  let event := JObj [("type", JStr "task.created");
                     ("data", JObj [("task_id", JInt 42); ("title", JStr "Standup")])] in
  let r := handle_task_events (mkenv (fun _ => false) "2026-02-01T09:00:00") event ∅ in
  r.1.1 = SKIP /\ r.1.1 <> SUCCESS /\ r.1.1 <> RETRY /\ r.2 = [] /\
  status_value r.1.1 = "SKIP".
Proof. cbn. repeat split; discriminate. Qed.

(** The body of the handler never answers [RETRY] itself: that answer
    comes from the [except] clause alone. *)
Lemma handle_task_events_body_status (e : env) (event : json)
    (reg : gmap string (gset nat)) (r : status * gmap string (gset nat) * list push) :
  handle_task_events_body e event reg = Some r ->
  r.1.1 = SUCCESS \/ r.1.1 = SKIP.
Proof.
  unfold handle_task_events_body.
  destruct (as_dict event) as [event_d|]; [|discriminate]. cbn [mbind option_bind].
  destruct (as_dict _) as [data|]; [|discriminate]. cbn [mbind option_bind].
  destruct (truthy _); cbn [negb].
  - destruct (build_notification _ _ _) as [[message|]|]; cbn [mbind option_bind].
    + destruct (send_to_user_value _ _ _ _) as [[reg' pushes]|]; cbn [mbind option_bind].
      * intros [= <-]. now left.
      * discriminate.
    + intros [= <-]. now left.
    + discriminate.
  - intros [= <-]. now right.
Qed.

(** The two other delivery handlers answer a missing user id alike. *)
Lemma other_handlers_skip (e : env) (event_d data : dict) (reg : gmap string (gset nat)) :
  dict_get_default "data" (JObj []) event_d = JObj data ->
  truthy (dict_get "user_id" data) = false ->
  handle_reminders e (JObj event_d) reg = (SKIP, reg, []) /\
  handle_task_updates e (JObj event_d) reg = (SKIP, reg, []).
Proof.
  intros Hdata Huser. unfold handle_reminders, handle_task_updates.
  cbn [as_dict mbind option_bind]. rewrite Hdata. cbn [as_dict mbind option_bind].
  rewrite Huser. split; reflexivity.
Qed.

(** C4, as the code has it. The answer of the task-events handler is one
    of [SUCCESS], [SKIP] and [RETRY], and [RETRY] comes with the registry
    untouched and nothing pushed. An event (a JSON object with an object
    payload) whose payload lacks a user id, or has a falsy one, is
    answered [SKIP], by the reminders and task-updates handlers too; one
    with a user id whose type has no notification mapping is answered
    [SUCCESS]. In both cases nothing is pushed and the registry is
    untouched. *)
Theorem notification_answer (e : env) (event : json) (reg : gmap string (gset nat)) :
  ((handle_task_events e event reg).1.1 = SUCCESS \/
   (handle_task_events e event reg).1.1 = SKIP \/
   (handle_task_events e event reg).1.1 = RETRY) /\
  ((handle_task_events e event reg).1.1 = RETRY ->
   handle_task_events e event reg = (RETRY, reg, [])) /\
  (forall event_d data,
     event = JObj event_d ->
     dict_get_default "data" (JObj []) event_d = JObj data ->
     truthy (dict_get "user_id" data) = false ->
     handle_task_events e event reg = (SKIP, reg, []) /\
     handle_reminders e event reg = (SKIP, reg, []) /\
     handle_task_updates e event reg = (SKIP, reg, [])) /\
  (forall event_d data,
     event = JObj event_d ->
     dict_get_default "data" (JObj []) event_d = JObj data ->
     truthy (dict_get "user_id" data) = true ->
     mapped_type (dict_get_default "type" (JStr "") event_d) = false ->
     handle_task_events e event reg = (SUCCESS, reg, [])).
Proof.
  split; [|split; [|split]].
  - destruct (handle_task_events e event reg).1.1; auto.
  - unfold handle_task_events.
    destruct (handle_task_events_body e event reg) as [r|] eqn:Hbody; [|reflexivity].
    intros Hr. destruct (handle_task_events_body_status _ _ _ _ Hbody); congruence.
  - intros event_d data -> Hdata Huser.
    split; [|exact (other_handlers_skip e event_d data reg Hdata Huser)].
    unfold handle_task_events, handle_task_events_body.
    cbn [as_dict mbind option_bind]. rewrite Hdata. cbn [as_dict mbind option_bind].
    rewrite Huser. reflexivity.
  - intros event_d data -> Hdata Huser Hmap.
    unfold handle_task_events, handle_task_events_body.
    cbn [as_dict mbind option_bind]. rewrite Hdata. cbn [as_dict mbind option_bind].
    rewrite Huser. cbn [negb].
    rewrite (build_notification_unmapped _ _ _ Hmap). reflexivity.
Qed.

(** *** The connection registry *)

(** The sockets collected by the send loop are the ones that raised. *)
Lemma send_loop_disconnected (fails : link) (message : dict) (conns : list nat) (c : nat) :
  c ∈ (send_loop fails message conns).1 <-> c ∈ conns /\ fails c = true.
Proof.
  induction conns as [|x rest IH]; cbn [send_loop].
  - cbn. split; [set_solver|]. intros [H _]. inversion H.
  - destruct (send_loop fails message rest) as [disconnected pushes] eqn:Hloop.
    cbn [fst] in IH.
    destruct (fails x) eqn:Hx; cbn [fst]; rewrite ?elem_of_union, ?elem_of_singleton,
      elem_of_cons, IH.
    + split.
      * intros [->|[? ?]]; auto.
      * intros [[->|?] ?]; auto.
    + split.
      * intros [? ?]; auto.
      * intros [[->|?] ?]; [congruence|auto].
Qed.

(** One send is attempted per connection. *)
Lemma send_loop_pushes (fails : link) (message : dict) (conns : list nat) :
  map push_to (send_loop fails message conns).2 = conns.
Proof.
  induction conns as [|x rest IH]; [reflexivity|]. cbn [send_loop].
  destruct (send_loop fails message rest) as [disconnected pushes].
  cbn [snd] in IH. destruct (fails x); cbn; now rewrite IH.
Qed.

Lemma send_to_user_lookup (fails : link) (user_id : string) (message : dict)
    (reg : gmap string (gset nat)) (conns : gset nat) :
  reg !! user_id = Some conns ->
  (send_to_user fails user_id message reg).1 =
  <[user_id := conns ∖ (send_loop fails message (elements conns)).1]> reg.
Proof.
  intros H. unfold send_to_user. rewrite H.
  destruct (send_loop fails message (elements conns)); reflexivity.
Qed.

Lemma send_to_user_absent (fails : link) (user_id : string) (message : dict)
    (reg : gmap string (gset nat)) :
  reg !! user_id = None -> send_to_user fails user_id message reg = (reg, []).
Proof. intros H. unfold send_to_user. now rewrite H. Qed.

(** [send_to_user] never adds or removes a key. *)
Lemma send_to_user_dom (fails : link) (user_id : string) (message : dict)
    (reg : gmap string (gset nat)) :
  dom (send_to_user fails user_id message reg).1 = dom reg.
Proof.
  destruct (reg !! user_id) as [conns|] eqn:H.
  - rewrite (send_to_user_lookup _ _ _ _ _ H), dom_insert_L.
    apply elem_of_dom_2 in H. set_solver.
  - now rewrite (send_to_user_absent _ _ _ _ H).
Qed.

(** When every connection of the user raises, the user stays registered
    with the empty set. *)
Lemma send_to_user_all_fail (fails : link) (user_id : string) (message : dict)
    (reg : gmap string (gset nat)) (conns : gset nat) :
  reg !! user_id = Some conns ->
  (forall c, c ∈ conns -> fails c = true) ->
  (send_to_user fails user_id message reg).1 !! user_id = Some ∅.
Proof.
  intros H Hall. rewrite (send_to_user_lookup _ _ _ _ _ H), lookup_insert_eq.
  f_equal. apply set_eq. intros c. rewrite elem_of_difference, send_loop_disconnected,
    elem_of_elements. split; [|set_solver].
  intros [Hc Hn]. exfalso. apply Hn. auto.
Qed.

(** A send that goes through on some connection keeps it registered. *)
Lemma send_to_user_keeps_live (fails : link) (user_id : string) (message : dict)
    (reg : gmap string (gset nat)) (conns : gset nat) (c : nat) :
  reg !! user_id = Some conns -> c ∈ conns -> fails c = false ->
  exists conns', (send_to_user fails user_id message reg).1 !! user_id = Some conns' /\
                 c ∈ conns'.
Proof.
  intros H Hc Hf. rewrite (send_to_user_lookup _ _ _ _ _ H), lookup_insert_eq.
  eexists; split; [reflexivity|].
  rewrite elem_of_difference, send_loop_disconnected. split; [exact Hc|].
  intros [_ ?]. congruence.
Qed.

Lemma broadcast_dom (fails : link) (message : dict) (reg : gmap string (gset nat)) :
  dom (broadcast fails message reg).1 = dom reg.
Proof.
  unfold broadcast.
  generalize (elements (dom reg)) as users.
  generalize (@nil push) as acc.
  intros acc users. revert reg acc.
  induction users as [|u users IH]; intros reg acc; [reflexivity|].
  cbn [foldl fst snd].
  destruct (send_to_user fails u message reg) as [reg' pushes] eqn:Hs.
  rewrite IH. replace reg' with (send_to_user fails u message reg).1 by now rewrite Hs.
  apply send_to_user_dom.
Qed.

Lemma connect_preserves (accepted : bool) (websocket : nat) (user_id : string)
    (reg reg' : gmap string (gset nat)) :
  no_empty_entry reg ->
  connect accepted websocket user_id reg = Some reg' ->
  no_empty_entry reg' /\ dom reg ⊆ dom reg' /\
  exists conns, reg' !! user_id = Some conns /\ websocket ∈ conns.
Proof.
  intros Hinv. unfold connect. destruct accepted; [|discriminate]. cbn [negb].
  intros [= <-]. repeat split.
  - intros u conns. destruct (decide (user_id = u)) as [->|Hne].
    + rewrite lookup_insert_eq. intros [= <-]. set_solver.
    + rewrite lookup_insert_ne by done.
      destruct (reg !! user_id); [apply Hinv|].
      rewrite lookup_insert_ne by done. apply Hinv.
  - rewrite dom_insert_L. destruct (reg !! user_id); [set_solver|].
    rewrite dom_insert_L. set_solver.
  - eexists. rewrite lookup_insert_eq. split; [reflexivity|set_solver].
Qed.

Lemma disconnect_preserves (websocket : nat) (user_id : string)
    (reg : gmap string (gset nat)) :
  no_empty_entry reg -> no_empty_entry (disconnect websocket user_id reg).
Proof.
  intros Hinv. unfold disconnect.
  destruct (reg !! user_id) as [conns|] eqn:H; [|exact Hinv].
  destruct (decide (conns ∖ {[websocket]} = ∅)) as [He|Hne].
  - intros u c. destruct (decide (user_id = u)) as [->|Hu].
    + now rewrite lookup_delete_eq.
    + rewrite lookup_delete_ne by done. apply Hinv.
  - intros u c. destruct (decide (user_id = u)) as [->|Hu].
    + rewrite lookup_insert_eq. now intros [= <-].
    + rewrite lookup_insert_ne by done. apply Hinv.
Qed.

(** [disconnect] of a user's last connection removes the user's key. *)
Lemma disconnect_last (websocket : nat) (user_id : string) (reg : gmap string (gset nat)) :
  reg !! user_id = Some {[websocket]} ->
  disconnect websocket user_id reg !! user_id = None.
Proof.
  intros H. unfold disconnect. rewrite H.
  destruct (decide (({[websocket]} : gset nat) ∖ {[websocket]} = ∅)) as [|Hne].
  - apply lookup_delete_eq.
  - exfalso. apply Hne. set_solver.
Qed.

(** C10. In the connection registry only [disconnect] removes a user's
    key: [connect] keeps every key, [send_to_user] and [broadcast] leave
    the key set as it is, while disconnecting a user's last connection
    deletes the key. If every connection of a registered user raises
    during [send_to_user], the user remains registered, mapped to the
    empty set. Hence the invariant that no registered user has an empty
    set of connections is preserved by [connect] and by [disconnect] but
    not by [send_to_user]. *)
Theorem registry_invariant :
  (forall accepted websocket user_id (reg reg' : gmap string (gset nat)),
     no_empty_entry reg -> connect accepted websocket user_id reg = Some reg' ->
     no_empty_entry reg' /\ dom reg ⊆ dom reg') /\
  (forall websocket user_id (reg : gmap string (gset nat)),
     no_empty_entry reg -> no_empty_entry (disconnect websocket user_id reg)) /\
  (forall websocket user_id (reg : gmap string (gset nat)),
     reg !! user_id = Some {[websocket]} ->
     disconnect websocket user_id reg !! user_id = None) /\
  (forall fails user_id message (reg : gmap string (gset nat)),
     dom (send_to_user fails user_id message reg).1 = dom reg) /\
  (forall fails message (reg : gmap string (gset nat)),
     dom (broadcast fails message reg).1 = dom reg) /\
  (forall fails user_id message (reg : gmap string (gset nat)) conns,
     reg !! user_id = Some conns ->
     (forall c, c ∈ conns -> fails c = true) ->
     (send_to_user fails user_id message reg).1 !! user_id = Some ∅) /\
  (exists fails user_id message (reg : gmap string (gset nat)),
     no_empty_entry reg /\
     ~ no_empty_entry (send_to_user fails user_id message reg).1).
Proof.
  repeat split.
  - eapply connect_preserves; eauto.
  - eapply connect_preserves; eauto.
  - apply disconnect_preserves; assumption.
  - apply disconnect_last; assumption.
  - apply send_to_user_dom.
  - apply broadcast_dom.
  - apply send_to_user_all_fail; assumption.
  - exists (fun _ => true), "u1", [("type", JStr "sync")], {[ "u1" := {[ 1%nat ]} ]}.
    split.
    + intros u conns H. apply lookup_singleton_Some in H as [_ <-]. set_solver.
    + intros Hinv.
      apply (Hinv "u1" ∅); [|reflexivity].
      apply (send_to_user_all_fail _ _ _ _ {[ 1%nat ]}).
      * apply lookup_singleton_eq.
      * reflexivity.
Qed.

End NotificationFacts.

(** ** Calendar arithmetic *)

Module PyDateFacts.
Import PyDate.

(** Leap years repeat every 400 years. *)
Lemma is_leap_400 (y k : Z) : is_leap (y + 400 * k) = is_leap y.
Proof.
  unfold is_leap.
  replace ((y + 400 * k) mod 4) with (y mod 4)
    by (Z.div_mod_to_equations; lia).
  replace ((y + 400 * k) mod 100) with (y mod 100)
    by (Z.div_mod_to_equations; lia).
  replace ((y + 400 * k) mod 400) with (y mod 400)
    by (Z.div_mod_to_equations; lia).
  reflexivity.
Qed.

Lemma days_before_year_400 (y k : Z) :
  days_before_year (y + 400 * k) = days_before_year y + DI400Y * k.
Proof.
  unfold days_before_year, DI400Y. cbv zeta.
  Z.div_mod_to_equations. lia.
Qed.

Lemma days_in_month_400 (y k m : Z) :
  days_in_month (y + 400 * k) m = days_in_month y m.
Proof. unfold days_in_month. now rewrite is_leap_400. Qed.

(** The ordinal of a date 400 years later is one full cycle further. *)
Lemma toordinal_shift (k : Z) (d : date) :
  toordinal (shift_years (400 * k) d) = toordinal d + DI400Y * k.
Proof.
  unfold toordinal, shift_years, ymd2ord, days_before_month. cbn [year month day].
  rewrite days_before_year_400, is_leap_400. lia.
Qed.

(** [fromordinal] works cycle by cycle. *)
Lemma fromordinal_cycle (n : Z) :
  fromordinal n =
  shift_years (400 * ((n - 1) / DI400Y)) (fromordinal ((n - 1) mod DI400Y + 1)).
Proof.
  pose proof (Z.mod_pos_bound (n - 1) DI400Y ltac:(reflexivity)) as Hr.
  unfold fromordinal. cbv zeta.
  replace ((n - 1) mod DI400Y + 1 - 1) with ((n - 1) mod DI400Y) by lia.
  rewrite (Z.div_small ((n - 1) mod DI400Y) DI400Y) by exact Hr.
  rewrite (Z.mod_small ((n - 1) mod DI400Y) DI400Y) by exact Hr.
  set (r := (n - 1) mod DI400Y).
  set (q := (n - 1) / DI400Y).
  destruct ((_ =? 4) || (_ =? 4)).
  - unfold shift_years. cbn [year month day]. f_equal. lia.
  - destruct (_ <? _); unfold shift_years; cbn [year month day]; f_equal; lia.
Qed.

Lemma date_test_spec (r : Z) (d : date) :
  date_test r d = true ->
  toordinal d = r + 1 /\ 1 <= month d <= 12 /\
  1 <= day d <= days_in_month (year d) (month d) /\
  1 <= year d <= 400 /\ (r < DI400Y - 366 -> year d <= 399).
Proof.
  unfold date_test. intros H.
  repeat (apply andb_true_iff in H; destruct H as [H ?]).
  repeat match goal with
         | Hb : (_ <=? _) = true |- _ => apply Z.leb_le in Hb
         | Hb : (_ =? _) = true |- _ => apply Z.eqb_eq in Hb
         end.
  repeat split; try assumption.
  intros Hlt.
  match goal with Hb : _ || _ = true |- _ =>
    apply orb_true_iff in Hb; destruct Hb as [Hb|Hb]; apply Z.leb_le in Hb end;
    [lia|assumption].
Qed.

Lemma cycle_check_sound (k : nat) :
  forall lo, cycle_check k lo = true ->
  forall r, lo <= r < lo + 2 ^ Z.of_nat k -> cycle_test r = true.
Proof.
  induction k as [|k IH]; intros lo H r Hr.
  - cbn in Hr. replace r with lo by lia. exact H.
  - cbn [cycle_check] in H. apply andb_true_iff in H as [H1 H2].
    rewrite Nat2Z.inj_succ, Z.pow_succ_r in Hr by lia.
    destruct (Z.lt_ge_cases r (lo + 2 ^ Z.of_nat k)).
    + apply (IH lo H1). lia.
    + apply (IH _ H2). lia.
Qed.

(** Every day of the first cycle passes the test. *)
Lemma first_cycle_low : cycle_check 17 0 = true.
Proof. vm_cast_no_check (eq_refl true). Qed.

Lemma first_cycle_high : cycle_check 14 131072 = true.
Proof. vm_cast_no_check (eq_refl true). Qed.

Lemma cycle_test_all (r : Z) : 0 <= r < DI400Y -> cycle_test r = true.
Proof.
  intros Hr. unfold DI400Y in Hr.
  destruct (Z.lt_ge_cases r 131072).
  - refine (cycle_check_sound 17 0 first_cycle_low r _).
    change (2 ^ Z.of_nat 17) with 131072. lia.
  - refine (cycle_check_sound 14 131072 first_cycle_high r _).
    change (2 ^ Z.of_nat 14) with 16384. lia.
Qed.

Lemma first_cycle (r : Z) :
  0 <= r < DI400Y ->
  toordinal (fromordinal (r + 1)) = r + 1 /\
  1 <= month (fromordinal (r + 1)) <= 12 /\
  1 <= day (fromordinal (r + 1)) <=
    days_in_month (year (fromordinal (r + 1))) (month (fromordinal (r + 1))) /\
  1 <= year (fromordinal (r + 1)) <= 400 /\
  (r < DI400Y - 366 -> year (fromordinal (r + 1)) <= 399).
Proof.
  intros Hr. apply date_test_spec.
  pose proof (cycle_test_all r Hr) as Ht. unfold cycle_test in Ht.
  apply orb_true_iff in Ht as [Ht|Ht]; [|exact Ht].
  apply Z.leb_le in Ht. lia.
Qed.

(** The ordinal round trip: [fromordinal] inverts [toordinal]. *)
Lemma toordinal_fromordinal (n : Z) : toordinal (fromordinal n) = n.
Proof.
  pose proof (Z.mod_pos_bound (n - 1) DI400Y ltac:(reflexivity)) as Hr.
  destruct (first_cycle _ Hr) as [Ht _].
  rewrite fromordinal_cycle, toordinal_shift, Ht.
  pose proof (Z.div_mod (n - 1) DI400Y ltac:(discriminate)). lia.
Qed.

(** An ordinal of the years 1 to 9999 gives a valid date. *)
Lemma fromordinal_valid (n : Z) :
  0 < n <= MAXORDINAL -> valid_date (fromordinal n) = true.
Proof.
  intros Hn.
  pose proof (Z.mod_pos_bound (n - 1) DI400Y ltac:(reflexivity)) as Hr.
  destruct (first_cycle _ Hr) as (_ & Hm & Hd & Hy & Hy').
  rewrite fromordinal_cycle.
  pose proof (Z.div_mod (n - 1) DI400Y ltac:(discriminate)) as Hdm.
  assert (Hq : 0 <= (n - 1) / DI400Y <= 24).
  { unfold DI400Y, MAXORDINAL in *. split.
    - apply Z.div_pos; lia.
    - apply Z.lt_succ_r. apply Z.div_lt_upper_bound; lia. }
  unfold valid_date, shift_years, MINYEAR, MAXYEAR. cbn [year month day].
  rewrite days_in_month_400.
  unfold DI400Y, MAXORDINAL in *.
  repeat (apply andb_true_iff; split); apply Z.leb_le; lia.
Qed.

(** Adding days moves the ordinal by that many days and stays within the
    calendar. *)
Lemma add_days_spec (d d' : date) (n : Z) :
  add_days d n = Some d' ->
  toordinal d' = toordinal d + n /\ valid_date d' = true.
Proof.
  unfold add_days, timedelta_days.
  destruct (Z.abs n <=? 999999999); [|discriminate].
  destruct (Z.ltb_spec 0 (toordinal d + n)) as [Hlo|]; [|discriminate].
  destruct (Z.leb_spec (toordinal d + n) MAXORDINAL) as [Hhi|]; [|discriminate].
  intros H. apply (inj Some) in H. rewrite <- H.
  split; [apply toordinal_fromordinal|apply fromordinal_valid; lia].
Qed.

(** It succeeds whenever the target day exists. *)
Lemma add_days_defined (d : date) (n : Z) :
  Z.abs n <= 999999999 ->
  0 < toordinal d + n <= MAXORDINAL ->
  add_days d n = Some (fromordinal (toordinal d + n)).
Proof.
  intros Hn [Hlo Hhi]. unfold add_days, timedelta_days.
  apply Z.leb_le in Hn, Hhi. apply Z.ltb_lt in Hlo.
  now rewrite Hn, Hlo, Hhi.
Qed.

End PyDateFacts.


(** ** Recurrence consumer *)

Module RecurringFacts.
Import Py PyDate Consumer Recurring Scenario.

(** *** Keys of the state store *)

Lemma str_of_Z_inj (a b : Z) : str_of_Z a = str_of_Z b -> a = b.
Proof.
  unfold str_of_Z. intros H.
  assert (Hnz : forall z, Z.to_int z <> Decimal.Pos Decimal.Nil /\
                          Z.to_int z <> Decimal.Neg Decimal.Nil).
  { intros [|q|q]; cbn; split; try discriminate;
      intros [= Hq]; now apply (DecimalPos.Unsigned.to_uint_nonnil q). }
  apply DecimalZ.to_int_inj.
  assert (Hs : Some (Z.to_int a) = Some (Z.to_int b)).
  { rewrite <- (NilZero.isi (Z.to_int a)) by apply Hnz.
    rewrite <- (NilZero.isi (Z.to_int b)) by apply Hnz.
    now rewrite H. }
  now injection Hs.
Qed.

(** Two integer task ids never share a key. *)
Lemma state_key_int_inj (a b : Z) : state_key (JInt a) = state_key (JInt b) -> a = b.
Proof.
  unfold state_key. cbn [py_str py_repr]. intros H.
  apply str_of_Z_inj. cbn in H. now injection H.
Qed.

(** *** Template dicts *)

Lemma dict_lookup_set_eq (k : string) (v : json) (d : dict) :
  dict_lookup k (dict_set k v d) = Some v.
Proof.
  induction d as [|[k' v'] d IH]; cbn [dict_set dict_lookup].
  - now rewrite String.eqb_refl.
  - destruct (String.eqb k k') eqn:E; cbn [dict_lookup].
    + now rewrite String.eqb_refl.
    + now rewrite E.
Qed.

Lemma dict_lookup_set_ne (k k' : string) (v : json) (d : dict) :
  k <> k' -> dict_lookup k' (dict_set k v d) = dict_lookup k' d.
Proof.
  intros Hne. induction d as [|[k0 v0] d IH]; cbn [dict_set dict_lookup].
  - destruct (String.eqb_spec k' k); [congruence|reflexivity].
  - destruct (String.eqb_spec k k0) as [->|Hk]; cbn [dict_lookup].
    + destruct (String.eqb_spec k' k0); [congruence|reflexivity].
    + now rewrite IH.
Qed.

(** *** The handler on a completion event *)

(** A completion event of a task with state passes every guard: the
    handler evaluates the end conditions of the stored configuration. *)
Lemma handle_completion (e : env) (event task_id user_id : json)
    (store : gmap string RecurrenceState) (st : RecurrenceState) :
  completion_event event task_id user_id ->
  get_ok e = true ->
  store !! state_key task_id = Some st ->
  handle_task_events e event store =
  match past_end_date e (config st) with
  | None => mkoutcome RETRY store []
  | Some past =>
      let store1 := if past then snd (delete_recurrence_state e task_id store) else store in
      let store2 := if max_reached (config st)
                    then snd (delete_recurrence_state e task_id store1) else store1 in
      if negb past && negb (max_reached (config st))
      then spawn_next e task_id user_id st store2
      else mkoutcome SUCCESS store2 []
  end.
Proof.
  intros (event_d & data & -> & Hty & Hdata & Htid & Huid & Hc & Ht & Hu) Hget Hst.
  unfold handle_task_events. cbn [as_dict].
  rewrite Hty, Hdata. cbn [negb as_dict].
  rewrite Htid, Huid, Hc, Ht, Hu. cbn [negb orb].
  unfold get_recurrence_state. rewrite Hget, Hst. reflexivity.
Qed.

(** With the end conditions not holding, the handler spawns. *)
Lemma handle_active (e : env) (event task_id user_id : json)
    (store : gmap string RecurrenceState) (st : RecurrenceState) :
  completion_event event task_id user_id ->
  get_ok e = true ->
  store !! state_key task_id = Some st ->
  active e (config st) ->
  handle_task_events e event store = spawn_next e task_id user_id st store.
Proof.
  intros Hev Hget Hst [Hpast Hmax].
  rewrite (handle_completion _ _ _ _ _ _ Hev Hget Hst), Hpast, Hmax. reflexivity.
Qed.

Lemma store_42_eq : store_42 = <["recurrence-42" := state_42]> ∅.
Proof. reflexivity. Qed.

Lemma completed_42_event : completion_event completed_42 (JInt 42) (JStr "u1").
Proof.
  eexists _, _. split; [reflexivity|]. repeat split.
Qed.

(** What the handler leaves when the spawn goes through. *)
Lemma spawn_next_created (e : env) (task_id user_id : json) (st : RecurrenceState)
    (store : gmap string RecurrenceState) (cur next : date) (new_task : dict) :
  current_due_date e (task_data st) = Some cur ->
  calculate_next_due_date cur (pattern (config st)) (interval (config st)) = Some next ->
  create_next_task e (next_call user_id (task_data st) next) = Some (JObj new_task) ->
  new_task <> [] ->
  spawn_next e task_id user_id st store =
  mkoutcome SUCCESS
    (snd (save_recurrence_state e (dict_get "id" new_task)
            (next_state (config st) (task_data st) next task_id) store))
    [next_call user_id (task_data st) next].
Proof.
  intros Hcur Hnext Hcreate Hne. unfold spawn_next.
  rewrite Hcur, Hnext, Hcreate.
  destruct new_task as [|kv rest]; [congruence|]. cbn [truthy as_dict].
  destruct (save_recurrence_state _ _ _ _). reflexivity.
Qed.

(** What the handler leaves when the backend does not create the task. *)
Lemma spawn_next_failed (e : env) (task_id user_id : json) (st : RecurrenceState)
    (store : gmap string RecurrenceState) (cur next : date) :
  current_due_date e (task_data st) = Some cur ->
  calculate_next_due_date cur (pattern (config st)) (interval (config st)) = Some next ->
  create_next_task e (next_call user_id (task_data st) next) = None ->
  spawn_next e task_id user_id st store =
  mkoutcome SUCCESS store [next_call user_id (task_data st) next].
Proof.
  intros Hcur Hnext Hcreate. unfold spawn_next.
  now rewrite Hcur, Hnext, Hcreate.
Qed.

(** C1, as stated, fails on the scenario of the specification: after the
    completion of task 42 and the creation of task 43, state exists under
    the new id with one occurrence created and the due date advanced to
    2026-02-02, and the state under the original id 42 is still there.
    It fails a second way when the state store refuses the write: task 43
    is created, the answer is [SUCCESS], and no state exists under the
    new id. *)
Lemma original_state_remains :
  let r := handle_task_events (world backend_up) completed_42 store_42 in
  let r' := handle_task_events world_write_refused completed_42 store_42 in
  answer r = SUCCESS /\
  map (fun c => isoformat (call_due_date c)) (calls r) = ["2026-02-02"] /\
  (exists st', store_after r !! state_key (JInt 43) = Some st' /\
               occurrences_created (config st') = 1 /\
               dict_get "due_date" (task_data st') = JStr "2026-02-02") /\
  store_after r !! state_key (JInt 42) = Some state_42 /\
  store_after r !! state_key (JInt 42) <> None /\
  answer r' = SUCCESS /\
  map (fun c => isoformat (call_due_date c)) (calls r') = ["2026-02-02"] /\
  create_next_task world_write_refused
    (next_call (JStr "u1") standup_template (mkdate 2026 2 2)) <> None /\
  store_after r' !! state_key (JInt 43) = None.
Proof.
  cbn zeta.
  rewrite (handle_active (world backend_up) completed_42 (JInt 42) (JStr "u1") store_42
             state_42 completed_42_event eq_refl eq_refl (conj eq_refl eq_refl)).
  rewrite (handle_active world_write_refused completed_42 (JInt 42) (JStr "u1") store_42
             state_42 completed_42_event eq_refl eq_refl (conj eq_refl eq_refl)).
  rewrite (spawn_next_created (world backend_up) _ _ _ _ (mkdate 2026 2 1) (mkdate 2026 2 2)
             (("id", JInt 43) :: ("user_id", JStr "u1") ::
              posted_task_data (next_call (JStr "u1") standup_template (mkdate 2026 2 2))));
    [|reflexivity|reflexivity|reflexivity|discriminate].
  rewrite (spawn_next_created world_write_refused _ _ _ _ (mkdate 2026 2 1) (mkdate 2026 2 2)
             (("id", JInt 43) :: ("user_id", JStr "u1") ::
              posted_task_data (next_call (JStr "u1") standup_template (mkdate 2026 2 2))));
    [|reflexivity|reflexivity|reflexivity|discriminate].
  set (st1 := next_state (config state_42) (task_data state_42) (mkdate 2026 2 2) (JInt 42)).
  change (snd (save_recurrence_state (world backend_up) _ _ _)) with
    (<["recurrence-43" := st1]> store_42 : gmap string RecurrenceState).
  change (snd (save_recurrence_state world_write_refused _ _ _)) with store_42.
  change (state_key (JInt 43)) with "recurrence-43".
  change (state_key (JInt 42)) with "recurrence-42".
  cbn [answer calls store_after map].
  rewrite lookup_insert_eq, lookup_insert_ne by discriminate.
  rewrite store_42_eq, lookup_insert_eq, lookup_insert_ne by discriminate.
  rewrite lookup_empty.
  split; [reflexivity|]. split; [reflexivity|].
  split; [exists st1; repeat split|].
  split; [reflexivity|]. split; [discriminate|].
  split; [reflexivity|]. split; [reflexivity|]. split; [discriminate|reflexivity].
Qed.

(** C1, as the code has it. On a completion event of a task whose
    recurrence state is active, when the task-creation call returns the
    new task, the handler answers [SUCCESS] after that one call and
    deletes nothing. If the state store accepts the write, the store
    afterwards is the old store with one key written, the key of the new
    task's id: the state there has [occurrences_created] incremented by
    one, the template's due date advanced to the computed next date, the
    same pattern, interval and end conditions, and the completed task as
    parent; every other key holds what it held before. So the state
    under the original task's id remains as it was whenever its key
    differs from the new task's key, as it does for two different integer
    ids; only when the backend answers with an id of the same key as the
    completed task's is the original key the one that now holds the new
    state. If the state store refuses the write, the store is left as it
    was. *)
Theorem spawn_writes_new_key_keeps_original (e : env) (event task_id user_id : json)
    (store : gmap string RecurrenceState) (st : RecurrenceState) (cur next : date)
    (new_task : dict) :
  completion_event event task_id user_id ->
  get_ok e = true ->
  store !! state_key task_id = Some st ->
  active e (config st) ->
  current_due_date e (task_data st) = Some cur ->
  calculate_next_due_date cur (pattern (config st)) (interval (config st)) = Some next ->
  create_next_task e (next_call user_id (task_data st) next) = Some (JObj new_task) ->
  new_task <> [] ->
  let r := handle_task_events e event store in
  let new_id := dict_get "id" new_task in
  let new_state := next_state (config st) (task_data st) next task_id in
  answer r = SUCCESS /\
  calls r = [next_call user_id (task_data st) next] /\
  (save_ok e = true ->
   store_after r = (<[state_key new_id := new_state]> store) /\
   (exists st',
      store_after r !! state_key new_id = Some st' /\
      occurrences_created (config st') = occurrences_created (config st) + 1 /\
      dict_get "due_date" (task_data st') = JStr (isoformat next) /\
      pattern (config st') = pattern (config st) /\
      interval (config st') = interval (config st) /\
      end_date (config st') = end_date (config st) /\
      max_occurrences (config st') = max_occurrences (config st) /\
      parent_task_id st' = Some task_id) /\
   (forall k, k <> state_key new_id -> store_after r !! k = store !! k) /\
   (state_key new_id <> state_key task_id ->
    store_after r !! state_key task_id = Some st) /\
   (forall a b, task_id = JInt a -> new_id = JInt b -> a <> b ->
    store_after r !! state_key task_id = Some st) /\
   (state_key new_id = state_key task_id ->
    store_after r !! state_key task_id = Some new_state)) /\
  (save_ok e = false -> store_after r = store).
Proof.
  intros Hev Hget Hst Hact Hcur Hnext Hcreate Hne r new_id new_state.
  assert (Hr : r = mkoutcome SUCCESS
                 (snd (save_recurrence_state e new_id new_state store))
                 [next_call user_id (task_data st) next]).
  { unfold r. rewrite (handle_active _ _ _ _ _ _ Hev Hget Hst Hact).
    now rewrite (spawn_next_created _ _ _ _ _ _ _ _ Hcur Hnext Hcreate Hne). }
  rewrite Hr. cbn [answer calls store_after]. unfold save_recurrence_state.
  split; [reflexivity|]. split; [reflexivity|]. split.
  - intros ->. cbn [snd].
    assert (Hkeep : state_key new_id <> state_key task_id ->
                    (<[state_key new_id := new_state]> store) !! state_key task_id = Some st).
    { intros Hk. now rewrite lookup_insert_ne. }
    split; [reflexivity|]. split; [|split; [|split; [|split]]].
    + exists new_state. split; [apply lookup_insert_eq|].
      repeat split. unfold dict_get, new_state, next_state. cbn [task_data].
      now rewrite dict_lookup_set_eq.
    + intros k Hk. now rewrite lookup_insert_ne.
    + exact Hkeep.
    + intros a b Ha Hb Hab. apply Hkeep. rewrite Ha, Hb.
      intros Hk. apply state_key_int_inj in Hk. congruence.
    + intros <-. apply lookup_insert_eq.
  - intros ->. reflexivity.
Qed.

(** The scenario of the specification: task 42 completed, task 43
    created. *)
Lemma spawn_writes_new_key_keeps_original_witness :
  let r := handle_task_events (world backend_up) completed_42 store_42 in
  answer r = SUCCESS /\
  store_after r !! state_key (JInt 42) = Some state_42.
Proof.
  pose proof (spawn_writes_new_key_keeps_original
                (world backend_up) completed_42 (JInt 42) (JStr "u1") store_42 state_42
                (mkdate 2026 2 1) (mkdate 2026 2 2)
                (("id", JInt 43) :: ("user_id", JStr "u1") ::
                 posted_task_data (next_call (JStr "u1") standup_template (mkdate 2026 2 2)))
                completed_42_event eq_refl eq_refl (conj eq_refl eq_refl)
                eq_refl eq_refl eq_refl ltac:(discriminate)) as H.
  cbn zeta in H. destruct H as (Ha & _ & Hok & _).
  destruct (Hok eq_refl) as (_ & _ & _ & _ & Hk & _).
  split; [exact Ha|]. apply (Hk 42 43); [reflexivity|reflexivity|lia].
Defined.

(** The same delivery when the backend answers with the completed task's
    own id: the state under [recurrence-42] is replaced by the new
    state. *)
Example same_id_overwrites :
  let backend := fun _ : next_task_call => Some (JObj [("id", JInt 42)]) in
  exists st',
    store_after (handle_task_events (world backend) completed_42 store_42)
      !! state_key (JInt 42) = Some st' /\
    occurrences_created (config st') = 1.
Proof.
  cbn zeta.
  rewrite (handle_active (world (fun _ => Some (JObj [("id", JInt 42)]))) completed_42
             (JInt 42) (JStr "u1") store_42 state_42 completed_42_event eq_refl eq_refl
             (conj eq_refl eq_refl)).
  rewrite (spawn_next_created _ _ _ _ _ (mkdate 2026 2 1) (mkdate 2026 2 2)
             [("id", JInt 42)]); [|reflexivity|reflexivity|reflexivity|discriminate].
  cbn [store_after].
  change (snd (save_recurrence_state _ _ _ _)) with
    (<["recurrence-42" :=
         next_state (config state_42) (task_data state_42) (mkdate 2026 2 2) (JInt 42)]>
       store_42 : gmap string RecurrenceState).
  change (state_key (JInt 42)) with "recurrence-42".
  rewrite lookup_insert_eq. eexists. split; reflexivity.
Qed.

(** C2, as stated, fails: the backend does not create the task and the
    handler answers [SUCCESS], not [RETRY]; the store is unchanged. *)
Lemma creation_failure_answers_success :
  let r := handle_task_events (world backend_down) completed_42 store_42 in
  answer r = SUCCESS /\ answer r <> RETRY /\ store_after r = store_42 /\
  length (calls r) = 1%nat.
Proof.
  cbn zeta.
  rewrite (handle_active (world backend_down) completed_42 (JInt 42) (JStr "u1") store_42
             state_42 completed_42_event eq_refl eq_refl (conj eq_refl eq_refl)).
  rewrite (spawn_next_failed _ _ _ _ _ (mkdate 2026 2 1) (mkdate 2026 2 2));
    [|reflexivity|reflexivity|reflexivity].
  cbn. repeat split. discriminate.
Qed.

(** C2, as the code has it. On a completion event of a task whose
    recurrence state is active, when the task-creation call fails (any
    status other than 201, or an exception inside [create_next_task]), the
    handler answers [SUCCESS] and the state store, [occurrences_created]
    included, is left unchanged. *)
Theorem creation_failure_keeps_state (e : env) (event task_id user_id : json)
    (store : gmap string RecurrenceState) (st : RecurrenceState) (cur next : date) :
  completion_event event task_id user_id ->
  get_ok e = true ->
  store !! state_key task_id = Some st ->
  active e (config st) ->
  current_due_date e (task_data st) = Some cur ->
  calculate_next_due_date cur (pattern (config st)) (interval (config st)) = Some next ->
  create_next_task e (next_call user_id (task_data st) next) = None ->
  answer (handle_task_events e event store) = SUCCESS /\
  store_after (handle_task_events e event store) = store /\
  store_after (handle_task_events e event store) !! state_key task_id = Some st /\
  calls (handle_task_events e event store) = [next_call user_id (task_data st) next].
Proof.
  intros Hev Hget Hst Hact Hcur Hnext Hcreate.
  rewrite (handle_active _ _ _ _ _ _ Hev Hget Hst Hact).
  rewrite (spawn_next_failed _ _ _ _ _ _ _ Hcur Hnext Hcreate).
  cbn [answer store_after calls]. auto.
Qed.

(** The same scenario with the backend down. *)
Lemma creation_failure_keeps_state_witness :
  answer (handle_task_events (world backend_down) completed_42 store_42) = SUCCESS /\
  store_after (handle_task_events (world backend_down) completed_42 store_42) = store_42.
Proof.
  pose proof (creation_failure_keeps_state
                (world backend_down) completed_42 (JInt 42) (JStr "u1") store_42 state_42
                (mkdate 2026 2 1) (mkdate 2026 2 2)
                completed_42_event eq_refl eq_refl (conj eq_refl eq_refl)
                eq_refl eq_refl eq_refl) as (Ha & Hs & _).
  split; assumption.
Defined.

(** *** Next due date: month and year patterns *)

(** The normalised delta of [n] months is worth [n] months. *)
Lemma relativedelta_months_total (n : Z) :
  rd_years (relativedelta_months n) * 12 + rd_months (relativedelta_months n) = n /\
  -11 <= rd_months (relativedelta_months n) <= 11.
Proof.
  unfold relativedelta_months, relativedelta_fix, sign.
  destruct (Z.ltb_spec 11 (Z.abs n)) as [Hbig|Hsmall]; cbn [rd_years rd_months].
  - destruct (Z.ltb_spec n 0) as [Hneg|Hpos].
    + pose proof (Z.div_mod (n * -1) 12 ltac:(lia)) as Hdm.
      pose proof (Z.mod_pos_bound (n * -1) 12 ltac:(lia)) as Hb. lia.
    + pose proof (Z.div_mod (n * 1) 12 ltac:(lia)) as Hdm.
      pose proof (Z.mod_pos_bound (n * 1) 12 ltac:(lia)) as Hb. lia.
  - lia.
Qed.

(** Monthly recurrence is calendar-aware: the result lies exactly
    [interval] months after the current due date, on the same day of the
    month or on the last day of a shorter target month. *)
Lemma monthly_next_due (d d' : date) (n : Z) :
  1 <= month d <= 12 ->
  calculate_next_due_date d MONTHLY n = Some d' ->
  year d' * 12 + month d' = year d * 12 + month d + n /\
  1 <= month d' <= 12 /\
  day d' = Z.min (days_in_month (year d') (month d')) (day d).
Proof.
  intros Hm. cbn [calculate_next_due_date]. unfold add_relativedelta.
  destruct (relativedelta_months_total n) as [Htot Hb].
  destruct (relativedelta_months n) as [ys ms]. cbn [rd_years rd_months] in *.
  destruct (Z.eqb_spec ms 0) as [->|Hnz].
  - destruct (_ && _); [|discriminate]. intros [= <-]. cbn [year month day]. lia.
  - destruct (Z.ltb_spec 12 (month d + ms)) as [Hc|Hc].
    + destruct (_ && _); [|discriminate]. intros [= <-]. cbn [year month day]. lia.
    + destruct (Z.ltb_spec (month d + ms) 1) as [Hc'|Hc'].
      * destruct (_ && _); [|discriminate]. intros [= <-]. cbn [year month day]. lia.
      * destruct (_ && _); [|discriminate]. intros [= <-]. cbn [year month day]. lia.
Qed.

(** Yearly recurrence: same month, [interval] years later, the day clamped
    to the target month (29 February becomes 28 February). *)
Lemma yearly_next_due (d d' : date) (n : Z) :
  calculate_next_due_date d YEARLY n = Some d' ->
  year d' = year d + n /\ month d' = month d /\
  day d' = Z.min (days_in_month (year d') (month d')) (day d).
Proof.
  cbn [calculate_next_due_date].
  change (relativedelta_years n) with (mkrel n 0).
  unfold add_relativedelta. cbn [rd_years rd_months].
  change (0 =? 0) with true. cbv iota.
  destruct (_ && _); [|discriminate]. intros [= <-]. cbn [year month day]. lia.
Qed.

(** *** End of a recurrence *)

(** A completion event for a state that has reached its maximum: the
    state is deleted and no task is created. *)
Lemma max_reached_ends (e : env) (event task_id user_id : json)
    (store : gmap string RecurrenceState) (st : RecurrenceState) :
  completion_event event task_id user_id ->
  get_ok e = true ->
  delete_ok e = true ->
  store !! state_key task_id = Some st ->
  max_reached (config st) = true ->
  past_end_date e (config st) <> None ->
  handle_task_events e event store =
  mkoutcome SUCCESS (delete (state_key task_id) store) [].
Proof.
  intros Hev Hget Hdel Hst Hmax Hend.
  rewrite (handle_completion _ _ _ _ _ _ Hev Hget Hst), Hmax.
  destruct (past_end_date e (config st)) as [past|]; [|congruence].
  unfold delete_recurrence_state. rewrite Hdel. cbn [snd].
  destruct past; cbn [negb andb]; [|reflexivity].
  now rewrite delete_delete_eq.
Qed.

(** *** Next due date: day patterns *)

(** Daily, weekly and biweekly recurrence add [interval] periods: the
    result is the valid date that many days after the current due date. *)
Lemma day_pattern_next_due (d d' : date) (p : RecurrencePattern) (n k : Z) :
  period_days p = Some k ->
  calculate_next_due_date d p n = Some d' ->
  toordinal d' = toordinal d + k * n /\ valid_date d' = true.
Proof.
  destruct p; cbn [period_days calculate_next_due_date]; intros [= <-] H;
    apply PyDateFacts.add_days_spec in H as [Ho Hv]; (split; [lia|exact Hv]).
Qed.

(** The handler makes its one call with the computed date, whatever the
    backend then answers. *)
Lemma spawn_next_calls (e : env) (task_id user_id : json) (st : RecurrenceState)
    (store : gmap string RecurrenceState) (cur next : date) :
  current_due_date e (task_data st) = Some cur ->
  calculate_next_due_date cur (pattern (config st)) (interval (config st)) = Some next ->
  calls (spawn_next e task_id user_id st store) = [next_call user_id (task_data st) next].
Proof.
  intros Hcur Hnext. unfold spawn_next. rewrite Hcur, Hnext.
  destruct (create_next_task e _) as [new_task|]; [|reflexivity].
  destruct (truthy new_task); [|reflexivity].
  destruct (as_dict new_task); [|reflexivity].
  destruct (save_recurrence_state _ _ _ _). reflexivity.
Qed.

(** C6. The next due date adds [interval] units of the pattern's period:
    for the day patterns the result is the valid date [period * interval]
    days later; for the monthly pattern it lies [interval] months later and
    for the yearly pattern [interval] years later, in both on the same day
    of the month clamped to the length of the target month. Weekly,
    interval 1, from 2026-01-01 gives 2026-01-08, also as the due date of
    the task the handler creates; monthly, interval 1, from 2026-01-31
    gives 2026-02-28, the end of February, not the 2026-03-02 of a 30-day
    offset. A completion event for a state with [max_occurrences = 1] and
    [occurrences_created = 1] deletes the state and creates no task. *)
Theorem next_due_date_calendar_aware :
  (forall d d' p n k,
     period_days p = Some k ->
     calculate_next_due_date d p n = Some d' ->
     toordinal d' = toordinal d + k * n /\ valid_date d' = true) /\
  (forall d d' n,
     1 <= month d <= 12 ->
     calculate_next_due_date d MONTHLY n = Some d' ->
     year d' * 12 + month d' = year d * 12 + month d + n /\
     1 <= month d' <= 12 /\
     day d' = Z.min (days_in_month (year d') (month d')) (day d)) /\
  (forall d d' n,
     calculate_next_due_date d YEARLY n = Some d' ->
     year d' = year d + n /\ month d' = month d /\
     day d' = Z.min (days_in_month (year d') (month d')) (day d)) /\
  (d ← fromisoformat "2026-01-01";
   isoformat <$> calculate_next_due_date d WEEKLY 1) = Some "2026-01-08" /\
  (forall e event task_id user_id (store : gmap string RecurrenceState),
     completion_event event task_id user_id ->
     get_ok e = true ->
     store !! state_key task_id = Some weekly_state ->
     map (fun c => isoformat (call_due_date c)) (calls (handle_task_events e event store))
     = ["2026-01-08"]) /\
  (d ← fromisoformat "2026-01-31";
   isoformat <$> calculate_next_due_date d MONTHLY 1) = Some "2026-02-28" /\
  (d ← fromisoformat "2026-01-31"; isoformat <$> add_days d 30) = Some "2026-03-02" /\
  (forall e event task_id user_id (store : gmap string RecurrenceState) st,
     completion_event event task_id user_id ->
     get_ok e = true ->
     delete_ok e = true ->
     store !! state_key task_id = Some st ->
     max_occurrences (config st) = Some 1 ->
     occurrences_created (config st) = 1 ->
     past_end_date e (config st) <> None ->
     handle_task_events e event store =
       mkoutcome SUCCESS (delete (state_key task_id) store) [] /\
     store_after (handle_task_events e event store) !! state_key task_id = None).
Proof.
  split; [exact day_pattern_next_due|].
  split; [exact monthly_next_due|].
  split; [exact yearly_next_due|].
  split; [vm_compute; reflexivity|].
  split.
  { intros e event task_id user_id store Hev Hget Hst.
    rewrite (handle_active _ _ _ _ _ _ Hev Hget Hst (conj eq_refl eq_refl)).
    rewrite (spawn_next_calls _ _ _ _ _ (mkdate 2026 1 1) (mkdate 2026 1 8));
      [reflexivity|reflexivity|reflexivity]. }
  split; [vm_compute; reflexivity|].
  split; [vm_compute; reflexivity|].
  intros e event task_id user_id store st Hev Hget Hdel Hst Hmax Hocc Hend.
  assert (Hreached : max_reached (config st) = true)
    by (unfold max_reached; rewrite Hmax, Hocc; reflexivity).
  rewrite (max_reached_ends _ _ _ _ _ _ Hev Hget Hdel Hst Hreached Hend).
  split; [reflexivity|]. cbn [store_after]. apply lookup_delete_eq.
Qed.

(** The exhausted state of task 42 on the completion of task 42. *)
Example exhausted_state_deleted :
  handle_task_events (world backend_up) completed_42
    (<["recurrence-42" := exhausted_state]> ∅)
  = mkoutcome SUCCESS ∅ [].
Proof.
  rewrite (max_reached_ends (world backend_up) completed_42 (JInt 42) (JStr "u1")
             (<["recurrence-42" := exhausted_state]> ∅) exhausted_state
             completed_42_event eq_refl eq_refl (lookup_insert_eq _ _ _)
             eq_refl ltac:(discriminate)).
  f_equal.
Qed.

End RecurringFacts.

(* ===================================================================== *)
(** * Further properties of the modelled code                             *)
(* ===================================================================== *)

(** ** Publisher: when a publish succeeds and what it sends *)

Module PublisherMore.
Import Py Schemas Publisher.

(** The loop answers [true] exactly when one of the attempts it still has
    goes through. *)
Lemma publish_loop_true_iff (net : network) (req : request) (retry_count : Z) :
  forall (remaining : nat) (attempt : Z),
    0 <= attempt ->
    attempt + Z.of_nat remaining = Z.max 0 retry_count ->
    fst (publish_loop net req retry_count remaining attempt) = true <->
    exists k, attempt <= k < attempt + Z.of_nat remaining /\ failed (net k) = false.
Proof.
  induction remaining as [|r IH]; intros attempt Hge Hsum.
  - cbn. split; [discriminate|]. intros (k & Hk & _). lia.
  - specialize (IH (attempt + 1) ltac:(lia) ltac:(lia)).
    assert (Hlater : (exists k, attempt + 1 <= k < attempt + 1 + Z.of_nat r /\
                                failed (net k) = false) ->
                     exists k, attempt <= k < attempt + Z.of_nat (S r) /\
                               failed (net k) = false).
    { intros (k & Hk & Hs). exists k. split; [lia|exact Hs]. }
    assert (Hsplit : failed (net attempt) = true ->
                     (exists k, attempt <= k < attempt + Z.of_nat (S r) /\
                                failed (net k) = false) ->
                     exists k, attempt + 1 <= k < attempt + 1 + Z.of_nat r /\
                               failed (net k) = false).
    { intros Hf (k & Hk & Hs). exists k. split; [|exact Hs].
      destruct (Z.eq_dec k attempt) as [->|]; [congruence|lia]. }
    cbn [publish_loop].
    destruct (net attempt) as [code| | |] eqn:Hnet.
    + destruct ((code =? 200) || (code =? 204)) eqn:Hcode.
      * cbn [fst]. split; [|reflexivity]. intros _. exists attempt.
        split; [lia|]. rewrite Hnet. cbn. now rewrite Hcode.
      * cbn [fst]. rewrite IH. split; [exact Hlater|].
        apply Hsplit. cbn. now rewrite Hcode.
    + destruct (Z.eqb_spec attempt (retry_count - 1)) as [Heq|Hne].
      * cbn [fst]. split; [discriminate|].
        intros (k & Hk & Hs). assert (k = attempt) as -> by lia.
        rewrite Hnet in Hs. discriminate.
      * cbn [fst]. rewrite IH. split; [exact Hlater|].
        apply Hsplit. reflexivity.
    + cbn [fst]. rewrite IH. split; [exact Hlater|]. apply Hsplit. reflexivity.
    + cbn [fst]. rewrite IH. split; [exact Hlater|]. apply Hsplit. reflexivity.
Qed.

(** X1. An enabled publisher returns [True] exactly when one of the
    attempts of index 0 to [retry_count - 1] is answered with status 200
    or 204. *)
Theorem publish_true_iff (p : EventPublisher) (net : network) (topic : Topics)
    (event : TaskEvent) (retry_count : Z) :
  enabled p = true ->
  fst (publish p net topic event retry_count) = true <->
  exists k, 0 <= k < retry_count /\ failed (net k) = false.
Proof.
  intros Hen. unfold publish. rewrite Hen. cbn [negb].
  rewrite publish_loop_true_iff by lia.
  split; intros (k & Hk & Hs); exists k; (split; [lia|exact Hs]).
Qed.

Lemma publish_true_iff_witness :
  fst (publish (default_publisher true)
         (fun k => if k =? 2 then Status 204 else TimeoutException) TASK_EVENTS
         (TaskDeletedEvent_from_task (mkDefaults "id-1" "t") 42 "u1") 3) = true.
Proof.
  apply (publish_true_iff (default_publisher true)); [reflexivity|].
  exists 2. split; [lia|reflexivity].
Defined.

(** Every request of the loop is the same request. *)
Lemma publish_loop_requests (net : network) (req : request) (retry_count : Z) :
  forall (remaining : nat) (attempt : Z),
    exists n, (n <= remaining)%nat /\
              snd (publish_loop net req retry_count remaining attempt) = repeat req n.
Proof.
  induction remaining as [|r IH]; intros attempt.
  - exists 0%nat. split; [lia|reflexivity].
  - destruct (IH (attempt + 1)) as (n & Hn & Hs).
    assert (Hcont : exists m, (m <= S r)%nat /\
                     req :: snd (publish_loop net req retry_count r (attempt + 1))
                     = repeat req m).
    { exists (S n). split; [lia|]. now rewrite Hs. }
    assert (Hone : exists m, (m <= S r)%nat /\ [req] = repeat req m).
    { exists 1%nat. split; [lia|reflexivity]. }
    cbn [publish_loop].
    destruct (net attempt) as [code| | |].
    + destruct ((code =? 200) || (code =? 204)); [exact Hone|exact Hcont].
    + destruct (attempt =? retry_count - 1); [exact Hone|exact Hcont].
    + exact Hcont.
    + exact Hcont.
Qed.

(** The loop stops at the first attempt that goes through. *)
Lemma publish_loop_first_success (net : network) (req : request) (retry_count k : Z) :
  0 <= k < retry_count ->
  failed (net k) = false ->
  (forall j, 0 <= j < k -> failed (net j) = true) ->
  forall (remaining : nat) (attempt : Z),
    0 <= attempt <= k ->
    attempt + Z.of_nat remaining = retry_count ->
    publish_loop net req retry_count remaining attempt =
    (true, repeat req (Z.to_nat (k - attempt + 1))).
Proof.
  intros Hk Hs Hbefore.
  induction remaining as [|r IH]; intros attempt Ha Hsum; [lia|].
  cbn [publish_loop].
  destruct (Z.eq_dec attempt k) as [->|Hne].
  - replace (k - k + 1) with 1 by lia.
    destruct (net k) as [code| | |]; cbn in Hs; try discriminate.
    apply negb_false_iff in Hs. now rewrite Hs.
  - assert (Hf : failed (net attempt) = true) by (apply Hbefore; lia).
    rewrite (IH (attempt + 1)) by lia.
    replace (Z.to_nat (k - attempt + 1)) with (S (Z.to_nat (k - (attempt + 1) + 1))) by lia.
    destruct (net attempt) as [code| | |]; cbn in Hf.
    + apply negb_true_iff in Hf. now rewrite Hf.
    + destruct (Z.eqb_spec attempt (retry_count - 1)); [lia|reflexivity].
    + reflexivity.
    + reflexivity.
Qed.

Lemma string_app_assoc (a b c : string) : (a +:+ b) +:+ c = a +:+ (b +:+ c).
Proof.
  induction a as [|x a IH]; [reflexivity|].
  change (String x ((a +:+ b) +:+ c) = String x (a +:+ (b +:+ c))). now rewrite IH.
Qed.

(** The requests of a publish are copies of one request, within the
    budget. *)
Lemma publish_snd_repeat (p : EventPublisher) (net : network) (topic : Topics)
    (event : TaskEvent) (retry_count : Z) :
  exists n, Z.of_nat n <= Z.max 0 retry_count /\
            snd (publish p net topic event retry_count) =
            repeat (mkrequest (publish_url p +:+ "/" +:+ Topics_value topic) (to_dict event)) n.
Proof.
  unfold publish. destruct (enabled p); cbn [negb].
  - destruct (publish_loop_requests net
                (mkrequest (publish_url p +:+ "/" +:+ Topics_value topic) (to_dict event))
                retry_count (Z.to_nat retry_count) 0) as (n & Hn & Hs).
    exists n. split; [lia|exact Hs].
  - exists 0%nat. split; [lia|reflexivity].
Qed.

(** X2. Whatever the sidecar does, the requests of one [publish] are
    copies of one request, the POST of the envelope's dump to
    [<base>/v1.0/publish/<pubsub>/<topic>], and there are at most
    [retry_count] of them; when attempt [k] is the first to go through,
    [publish] returns [True] after exactly [k + 1] requests. *)
Theorem publish_requests (p : EventPublisher) (net : network) (topic : Topics)
    (event : TaskEvent) (retry_count : Z) :
  let req := mkrequest
               ("http://" +:+ dapr_host p +:+ ":" +:+ str_of_Z (dapr_port p) +:+
                "/v1.0/publish/" +:+ pubsub_name p +:+ "/" +:+ Topics_value topic)
               (to_dict event) in
  (exists n, Z.of_nat n <= Z.max 0 retry_count /\
             snd (publish p net topic event retry_count) = repeat req n) /\
  (forall k,
     enabled p = true ->
     0 <= k < retry_count ->
     failed (net k) = false ->
     (forall j, 0 <= j < k -> failed (net j) = true) ->
     publish p net topic event retry_count = (true, repeat req (Z.to_nat (k + 1)))).
Proof.
  intros req. unfold publish.
  assert (Hreq : mkrequest (publish_url p +:+ "/" +:+ Topics_value topic) (to_dict event) = req).
  { unfold req, publish_url, base_url. f_equal.
    rewrite !string_app_assoc. reflexivity. }
  rewrite Hreq. split.
  - destruct (enabled p); cbn [negb].
    + destruct (publish_loop_requests net req retry_count (Z.to_nat retry_count) 0)
        as (n & Hn & Hs).
      exists n. split; [lia|exact Hs].
    + exists 0%nat. split; [lia|reflexivity].
  - intros k Hen Hk Hs Hbefore. rewrite Hen. cbn [negb].
    rewrite (publish_loop_first_success net req retry_count k Hk Hs Hbefore) by lia.
    do 2 f_equal. lia.
Qed.

(** X3. The publisher is configured once: after a call of
    [get_event_publisher] has returned a publisher, every later call
    returns that same publisher, whatever the environment variables have
    become; and the first call enables publishing when [DAPR_ENABLED] is
    unset. *)
Theorem get_event_publisher_sticky (int_of_str : string -> option Z)
    (getenv getenv' : string -> option string) (global : option EventPublisher)
    (p : EventPublisher) :
  fst (get_event_publisher int_of_str getenv global) = Some p ->
  get_event_publisher int_of_str getenv'
    (snd (get_event_publisher int_of_str getenv global)) = (Some p, Some p) /\
  (global = None -> getenv "DAPR_ENABLED" = None -> enabled p = true).
Proof.
  unfold get_event_publisher. destruct global as [q|].
  - cbn. intros [= ->]. split; [reflexivity|discriminate].
  - destruct (int_of_str _) as [port|]; [|discriminate].
    cbn. intros [= <-]. split; [reflexivity|].
    intros _ Hunset. unfold dapr_enabled. rewrite Hunset. reflexivity.
Qed.

Lemma get_event_publisher_sticky_witness :
  get_event_publisher (fun _ => Some 3500) (fun _ => Some "false")
    (snd (get_event_publisher (fun _ => Some 3500) (fun _ => None) None))
  = (Some (default_publisher true), Some (default_publisher true)).
Proof.
  apply (get_event_publisher_sticky (fun _ => Some 3500) (fun _ => None)
           (fun _ => Some "false") None (default_publisher true)).
  reflexivity.
Defined.

(** The accepted spellings of [DAPR_ENABLED] are matched without regard
    to case; anything else, the empty string included, disables. *)
Example dapr_enabled_spellings :
  map (fun v => dapr_enabled (fun _ => Some v))
      ["true"; "TRUE"; "True"; "1"; "yes"; "YES"; "on"; "0"; "false"; ""; " true"]
  = [true; true; true; true; true; true; false; false; false; false; false].
Proof. vm_compute. reflexivity. Qed.

End PublisherMore.

(** ** Notification consumer: what a send and a delivery do to the registry *)

Module NotificationMore.
Import Py Consumer Notification.

(** The sends of the loop, one per connection and in order, carry the
    message and record whether the socket raised. *)
Lemma send_loop_attempts (fails : link) (message : dict) (conns : list nat) :
  (send_loop fails message conns).2 =
  map (fun c => mkpush c message (negb (fails c))) conns.
Proof.
  induction conns as [|x rest IH]; [reflexivity|]. cbn [send_loop map].
  destruct (send_loop fails message rest) as [disconnected pushes].
  cbn [snd] in IH. destruct (fails x); cbn; now rewrite IH.
Qed.

(** The set [send_to_user] leaves for the user: the connections whose
    send went through. *)
Lemma send_to_user_kept (fails : link) (user_id : string) (message : dict)
    (reg : gmap string (gset nat)) (conns : gset nat) :
  reg !! user_id = Some conns ->
  exists conns',
    (send_to_user fails user_id message reg).1 !! user_id = Some conns' /\
    forall c, c ∈ conns' <-> c ∈ conns /\ fails c = false.
Proof.
  intros H.
  rewrite (NotificationFacts.send_to_user_lookup _ _ _ _ _ H), lookup_insert_eq.
  eexists; split; [reflexivity|]. intros c.
  rewrite elem_of_difference, NotificationFacts.send_loop_disconnected, elem_of_elements.
  split.
  - intros [Hc Hn]. split; [exact Hc|]. destruct (fails c); [|reflexivity].
    exfalso. apply Hn. auto.
  - intros [Hc Hf]. split; [exact Hc|]. intros [_ ?]. congruence.
Qed.

(** The entries of the other users are not touched. *)
Lemma send_to_user_other (fails : link) (user_id other : string) (message : dict)
    (reg : gmap string (gset nat)) :
  other ≠ user_id ->
  (send_to_user fails user_id message reg).1 !! other = reg !! other.
Proof.
  intros Hne. destruct (reg !! user_id) as [conns|] eqn:H.
  - rewrite (NotificationFacts.send_to_user_lookup _ _ _ _ _ H).
    now rewrite lookup_insert_ne.
  - now rewrite (NotificationFacts.send_to_user_absent _ _ _ _ H).
Qed.

(** The sends attempted: one per connection. *)
Lemma send_to_user_pushes (fails : link) (user_id : string) (message : dict)
    (reg : gmap string (gset nat)) (conns : gset nat) :
  reg !! user_id = Some conns ->
  (send_to_user fails user_id message reg).2 =
    map (fun c => mkpush c message (negb (fails c))) (elements conns).
Proof.
  intros H. unfold send_to_user. rewrite H.
  pose proof (send_loop_attempts fails message (elements conns)) as Ha.
  destruct (send_loop fails message (elements conns)). exact Ha.
Qed.

(** X4. [send_to_user] on a registered user tries every connection of the
    user once with the given message, keeps exactly the connections whose
    send went through, and leaves every other user's entry as it was. *)
Theorem send_to_user_effect (fails : link) (user_id : string) (message : dict)
    (reg : gmap string (gset nat)) (conns : gset nat) :
  reg !! user_id = Some conns ->
  (exists conns',
     (send_to_user fails user_id message reg).1 !! user_id = Some conns' /\
     forall c, c ∈ conns' <-> c ∈ conns /\ fails c = false) /\
  (forall other, other ≠ user_id ->
     (send_to_user fails user_id message reg).1 !! other = reg !! other) /\
  (send_to_user fails user_id message reg).2 =
    map (fun c => mkpush c message (negb (fails c))) (elements conns).
Proof.
  intros H. split; [|split].
  - exact (send_to_user_kept fails user_id message reg conns H).
  - intros other Hne. exact (send_to_user_other fails user_id other message reg Hne).
  - exact (send_to_user_pushes fails user_id message reg conns H).
Qed.

Lemma send_to_user_effect_witness :
  (send_to_user (fun c => Nat.eqb c 2) "u1" [("type", JStr "sync")]
     {[ "u1" := {[ 1%nat; 2%nat ]} ]}).1 !! "u2" = None.
Proof.
  destruct (send_to_user_effect (fun c => Nat.eqb c 2) "u1" [("type", JStr "sync")]
              {[ "u1" := {[ 1%nat; 2%nat ]} ]} {[ 1%nat; 2%nat ]}
              (lookup_singleton_eq _ _)) as (_ & Hother & _).
  rewrite (Hother "u2") by discriminate. reflexivity.
Defined.

(** X5. Connecting a socket that is not yet registered for the user and
    then disconnecting it gives the registry back, provided the user was
    not registered with an empty set (as [send_to_user] can leave it). *)
Theorem connect_disconnect (websocket : nat) (user_id : string)
    (reg reg' : gmap string (gset nat)) :
  reg !! user_id ≠ Some ∅ ->
  websocket ∉ default ∅ (reg !! user_id) ->
  connect true websocket user_id reg = Some reg' ->
  disconnect websocket user_id reg' = reg.
Proof.
  intros Hne Hfresh. unfold connect. cbn [negb]. intros [= <-].
  unfold disconnect. rewrite lookup_insert_eq.
  destruct (reg !! user_id) as [conns|] eqn:Hu.
  - replace (default ∅ (reg !! user_id)) with conns by (now rewrite Hu).
    change (websocket ∉ conns) in Hfresh.
    assert (Hsame : ({[websocket]} ∪ conns) ∖ {[websocket]} = conns) by set_solver.
    rewrite Hsame.
    destruct (decide (conns = ∅)) as [->|_]; [congruence|].
    rewrite insert_insert_eq. now apply insert_id.
  - replace (default ∅ (<[user_id:=∅]> reg !! user_id)) with (∅ : gset nat)
      by (now rewrite lookup_insert_eq).
    assert (Hsame : (({[websocket]} ∪ ∅) ∖ {[websocket]} : gset nat) = ∅) by set_solver.
    rewrite Hsame.
    destruct (decide ((∅ : gset nat) = ∅)) as [_|Hc]; [|congruence].
    rewrite delete_insert_eq, delete_insert_eq. now apply delete_id.
Qed.

Lemma connect_disconnect_witness :
  disconnect 7 "u1"
    (default (∅ : gmap string (gset nat))
       (connect true 7 "u1" (∅ : gmap string (gset nat))))
  = (∅ : gmap string (gset nat)).
Proof.
  apply (connect_disconnect 7 "u1" ∅).
  - rewrite lookup_empty. discriminate.
  - rewrite lookup_empty. cbn. set_solver.
  - reflexivity.
Defined.

Lemma only_drops_refl (reg : gmap string (gset nat)) : only_drops reg reg.
Proof. split; [reflexivity|]. intros u c H. exists c. split; [exact H|set_solver]. Qed.

Lemma send_to_user_only_drops (fails : link) (user_id : string) (message : dict)
    (reg : gmap string (gset nat)) :
  only_drops reg (send_to_user fails user_id message reg).1.
Proof.
  split; [apply NotificationFacts.send_to_user_dom|].
  destruct (reg !! user_id) as [conns|] eqn:H.
  - rewrite (NotificationFacts.send_to_user_lookup _ _ _ _ _ H).
    intros u c'. destruct (decide (user_id = u)) as [<-|Hne].
    + rewrite lookup_insert_eq. intros [= <-]. exists conns. split; [exact H|set_solver].
    + rewrite lookup_insert_ne by done. intros Hu. exists c'. split; [exact Hu|set_solver].
  - rewrite (NotificationFacts.send_to_user_absent _ _ _ _ H). apply only_drops_refl.
Qed.

(** The sends of [send_to_user] go to connections of that user. *)
Lemma send_to_user_targets (fails : link) (user_id : string) (message : dict)
    (reg : gmap string (gset nat)) (p : push) :
  p ∈ (send_to_user fails user_id message reg).2 ->
  exists conns, reg !! user_id = Some conns /\ push_to p ∈ conns /\
                push_message p = message.
Proof.
  destruct (reg !! user_id) as [conns|] eqn:H.
  - rewrite (send_to_user_pushes fails user_id message reg conns H).
    intros Hp. apply list_elem_of_fmap in Hp as (c & -> & Hc).
    exists conns. cbn. split; [reflexivity|]. split; [|reflexivity].
    now apply elem_of_elements.
  - rewrite (NotificationFacts.send_to_user_absent _ _ _ _ H). cbn. intros Hp. inversion Hp.
Qed.

Lemma send_to_user_value_behaved (fails : link) (event_d data : dict) (message : dict)
    (reg reg' : gmap string (gset nat)) (pushes : list push) :
  dict_get_default "data" (JObj []) event_d = JObj data ->
  send_to_user_value fails (dict_get "user_id" data) message reg = Some (reg', pushes) ->
  well_behaved (JObj event_d) reg (SUCCESS, reg', pushes).
Proof.
  intros Hdata. unfold send_to_user_value.
  destruct (dict_get "user_id" data) as [|b|z|s|l|kvs] eqn:Hu; try discriminate.
  1-3: intros [= <- <-]; split; [apply only_drops_refl|intros p Hp; inversion Hp].
  intros [= Hs].
  replace reg' with (send_to_user fails s message reg).1 by now rewrite Hs.
  replace pushes with (send_to_user fails s message reg).2 by now rewrite Hs.
  split; [apply send_to_user_only_drops|].
  intros p Hp. apply send_to_user_targets in Hp as (conns & Hc & Hin & _).
  exists event_d, data, s, conns. auto.
Qed.

Lemma untouched_behaved (st : status) (event : json) (reg : gmap string (gset nat)) :
  well_behaved event reg (st, reg, []).
Proof. split; [apply only_drops_refl|]. intros p Hp. inversion Hp. Qed.

(** X6. No delivery handler of the notification consumer ever registers
    anything: after any event, with any answer, the registry has the same
    users and each user at most the connections it had; and every send
    attempted went to a connection registered for the user id carried by
    the event's payload. *)
Theorem handlers_only_drop (e : env) (event : json) (reg : gmap string (gset nat)) :
  well_behaved event reg (handle_task_events e event reg) /\
  well_behaved event reg (handle_reminders e event reg) /\
  well_behaved event reg (handle_task_updates e event reg).
Proof.
  split; [|split].
  - unfold handle_task_events, handle_task_events_body.
    destruct event as [| | | | |event_d]; try apply untouched_behaved.
    cbn [as_dict mbind option_bind].
    destruct (dict_get_default "data" (JObj []) event_d) as [| | | | |data] eqn:Hdata;
      try apply untouched_behaved.
    cbn [as_dict mbind option_bind].
    destruct (truthy (dict_get "user_id" data)); cbn [negb]; [|apply untouched_behaved].
    destruct (build_notification _ _ _) as [[message|]|]; cbn [mbind option_bind];
      try apply untouched_behaved.
    destruct (send_to_user_value _ _ _ _) as [[reg' pushes]|] eqn:Hs;
      cbn [mbind option_bind]; [|apply untouched_behaved].
    exact (send_to_user_value_behaved _ _ _ _ _ _ _ Hdata Hs).
  - unfold handle_reminders.
    destruct event as [| | | | |event_d]; try apply untouched_behaved.
    cbn [as_dict mbind option_bind].
    destruct (dict_get_default "data" (JObj []) event_d) as [| | | | |data] eqn:Hdata;
      try apply untouched_behaved.
    cbn [as_dict mbind option_bind].
    destruct (truthy (dict_get "user_id" data)); cbn [negb]; [|apply untouched_behaved].
    destruct (send_to_user_value _ _ _ _) as [[reg' pushes]|] eqn:Hs;
      cbn [mbind option_bind]; [|apply untouched_behaved].
    exact (send_to_user_value_behaved _ _ _ _ _ _ _ Hdata Hs).
  - unfold handle_task_updates.
    destruct event as [| | | | |event_d]; try apply untouched_behaved.
    cbn [as_dict mbind option_bind].
    destruct (dict_get_default "data" (JObj []) event_d) as [| | | | |data] eqn:Hdata;
      try apply untouched_behaved.
    cbn [as_dict mbind option_bind].
    destruct (truthy (dict_get "user_id" data)); cbn [negb]; [|apply untouched_behaved].
    destruct (send_to_user_value _ _ _ _) as [[reg' pushes]|] eqn:Hs;
      cbn [mbind option_bind]; [|apply untouched_behaved].
    exact (send_to_user_value_behaved _ _ _ _ _ _ _ Hdata Hs).
Qed.

(** X7. A task event of a mapped type reaches its user: for a payload
    with a non-empty string user id and one of the types
    ["task.created"], ["task.completed"], ["task.uncompleted"] and
    ["task.deleted"], the handler answers [SUCCESS] and does exactly one
    [send_to_user] for that user, with a message that carries the event's
    type, the payload's task id and the clock's timestamp; this holds
    whether or not any send goes through. An update event without a
    change-set, or with an empty one, is answered [SUCCESS] and sends
    nothing. *)
Theorem mapped_event_notifies (e : env) (event_d data : dict) (u ty : string)
    (reg : gmap string (gset nat)) :
  dict_get_default "data" (JObj []) event_d = JObj data ->
  dict_get "user_id" data = JStr u ->
  u <> "" ->
  dict_get_default "type" (JStr "") event_d = JStr ty ->
  (ty = "task.created" \/ ty = "task.completed" \/ ty = "task.uncompleted" \/
   ty = "task.deleted" ->
   exists message,
     handle_task_events e (JObj event_d) reg =
       (SUCCESS, (send_to_user (fails e) u message reg).1,
                 (send_to_user (fails e) u message reg).2) /\
     dict_get "type" message = JStr ty /\
     dict_get "task_id" message = dict_get "task_id" data /\
     dict_get "timestamp" message = JStr (utcnow e)) /\
  (ty = "task.updated" ->
   truthy (dict_get_default "changes" (JObj []) data) = false ->
   handle_task_events e (JObj event_d) reg = (SUCCESS, reg, [])).
Proof.
  intros Hdata Huser Hne Hty.
  assert (Htruthy : truthy (dict_get "user_id" data) = true).
  { rewrite Huser. cbn. destruct (String.eqb_spec u ""); [congruence|reflexivity]. }
  assert (Hbody : forall message,
            build_notification e (JStr ty) data = Some (Some message) ->
            handle_task_events e (JObj event_d) reg =
              (SUCCESS, (send_to_user (fails e) u message reg).1,
                        (send_to_user (fails e) u message reg).2)).
  { intros message Hb. unfold handle_task_events, handle_task_events_body.
    cbn [as_dict mbind option_bind]. rewrite Hdata. cbn [as_dict mbind option_bind].
    rewrite Htruthy, Hty, Hb. cbn [negb mbind option_bind].
    rewrite Huser. cbn [send_to_user_value mbind option_bind].
    destruct (send_to_user (fails e) u message reg). reflexivity. }
  split.
  - intros [->|[->|[->| ->]]]; eexists; (split; [apply Hbody; reflexivity|]);
      repeat split.
  - intros -> Hch. unfold handle_task_events, handle_task_events_body.
    cbn [as_dict mbind option_bind]. rewrite Hdata. cbn [as_dict mbind option_bind].
    rewrite Htruthy, Hty. cbn [negb].
    unfold build_notification. cbn [eq_str]. rewrite Hch. reflexivity.
Qed.

Lemma mapped_event_notifies_witness :
  handle_task_events (mkenv (fun _ => false) "2026-02-01T09:00:00")
    (JObj [("type", JStr "task.updated");
           ("data", JObj [("task_id", JInt 42); ("user_id", JStr "u1")])]) ∅
  = (SUCCESS, ∅, []).
Proof.
  destruct (mapped_event_notifies (mkenv (fun _ => false) "2026-02-01T09:00:00")
              [("type", JStr "task.updated");
               ("data", JObj [("task_id", JInt 42); ("user_id", JStr "u1")])]
              [("task_id", JInt 42); ("user_id", JStr "u1")] "u1" "task.updated" ∅
              eq_refl eq_refl ltac:(discriminate) eq_refl) as [_ H].
  apply H; reflexivity.
Defined.

(** The fold of [broadcast] over any list of distinct users. *)
Lemma broadcast_fold (fails : link) (message : dict) (users : list string) :
  NoDup users ->
  forall (reg0 : gmap string (gset nat)) (acc0 : list push),
    let r := foldl (fun acc user_id =>
                      let '(reg, pushes) := send_to_user fails user_id message acc.1 in
                      (reg, acc.2 ++ pushes))
                   (reg0, acc0) users in
    (forall u, u ∉ users -> r.1 !! u = reg0 !! u) /\
    (forall u conns, u ∈ users -> reg0 !! u = Some conns ->
       exists conns', r.1 !! u = Some conns' /\
                      forall c, c ∈ conns' <-> c ∈ conns /\ fails c = false) /\
    (forall p, p ∈ acc0 -> p ∈ r.2) /\
    (forall u conns c, u ∈ users -> reg0 !! u = Some conns -> c ∈ conns ->
       mkpush c message (negb (fails c)) ∈ r.2).
Proof.
  induction users as [|u0 rest IH]; intros Hnd reg0 acc0.
  - cbn. repeat split; try (intros; exfalso; eapply not_elem_of_nil; eassumption); auto.
  - apply NoDup_cons in Hnd as [Hfresh Hnd].
    cbn [foldl fst snd].
    destruct (send_to_user fails u0 message reg0) as [reg1 pushes0] eqn:Hs.
    assert (Hreg1 : reg1 = (send_to_user fails u0 message reg0).1) by now rewrite Hs.
    assert (Hp0 : pushes0 = (send_to_user fails u0 message reg0).2) by now rewrite Hs.
    assert (Hother : forall u, u ≠ u0 -> reg1 !! u = reg0 !! u).
    { intros u Hu. rewrite Hreg1. now apply send_to_user_other. }
    destruct (IH Hnd reg1 (acc0 ++ pushes0)) as (I1 & I2 & I3 & I4).
    cbv zeta in I1, I2, I3, I4 |- *.
    split; [|split; [|split]].
    + intros u Hu. apply not_elem_of_cons in Hu as [Hne Hrest].
      rewrite (I1 u Hrest). now apply Hother.
    + intros u conns Hu Hc. apply elem_of_cons in Hu as [->|Hrest].
      * rewrite (I1 u0 Hfresh), Hreg1.
        exact (send_to_user_kept fails u0 message reg0 conns Hc).
      * apply (I2 u conns Hrest). rewrite Hother; [exact Hc|].
        intros ->. contradiction.
    + intros p Hp. apply I3. apply elem_of_app. now left.
    + intros u conns c Hu Hc Hin. apply elem_of_cons in Hu as [->|Hrest].
      * apply I3. apply elem_of_app. right. rewrite Hp0.
        rewrite (send_to_user_pushes fails u0 message reg0 conns Hc).
        apply list_elem_of_fmap. exists c. split; [reflexivity|].
        now apply elem_of_elements.
      * apply (I4 u conns c Hrest); [|exact Hin]. rewrite Hother; [exact Hc|].
        intros ->. contradiction.
Qed.

(** The sends of one user's turn in [broadcast]: one per connection the
    registry holds for the user, in the order of the set's iteration. *)
Definition user_sends (fails : link) (message : dict)
    (reg : gmap string (gset nat)) (u : string) : list push :=
  map (fun c => mkpush c message (negb (fails c))) (elements (default ∅ (reg !! u))).

(** The trace of the fold of [broadcast] over any list of distinct users:
    what was there before, then each user's sends in turn, computed from
    the registry the fold started with. *)
Lemma broadcast_fold_trace (fails : link) (message : dict) (users : list string) :
  NoDup users ->
  forall (reg0 : gmap string (gset nat)) (acc0 : list push),
    (foldl (fun acc user_id =>
              let '(reg, pushes) := send_to_user fails user_id message acc.1 in
              (reg, acc.2 ++ pushes))
           (reg0, acc0) users).2
    = acc0 ++ concat (map (user_sends fails message reg0) users).
Proof.
  induction users as [|u0 rest IH]; intros Hnd reg0 acc0.
  - cbn. now rewrite app_nil_r.
  - apply NoDup_cons in Hnd as [Hfresh Hnd].
    cbn [foldl fst snd map concat].
    destruct (send_to_user fails u0 message reg0) as [reg1 pushes0] eqn:Hs.
    assert (Hreg1 : reg1 = (send_to_user fails u0 message reg0).1) by now rewrite Hs.
    assert (Hp0 : pushes0 = user_sends fails message reg0 u0).
    { unfold user_sends. destruct (reg0 !! u0) as [conns|] eqn:Hc.
      - change (default ∅ (Some conns)) with conns.
        rewrite <- (send_to_user_pushes fails u0 message reg0 conns Hc).
        now rewrite Hs.
      - rewrite (NotificationFacts.send_to_user_absent _ _ _ _ Hc) in Hs.
        injection Hs as _ <-.
        change (default ∅ (@None (gset nat))) with (∅ : gset nat).
        now rewrite elements_empty. }
    rewrite (IH Hnd reg1 (acc0 ++ pushes0)), <- app_assoc, Hp0.
    f_equal. f_equal. f_equal. apply map_ext_in. intros u Hu.
    unfold user_sends. rewrite Hreg1, send_to_user_other; [reflexivity|].
    intros ->. apply Hfresh. now apply list_elem_of_In.
Qed.

(** X8. [broadcast] tries every connection of every registered user
    once with the message and sends nothing else: the sends are exactly,
    user by user over the distinct keys of the registry, one per
    connection of that user, so their number is the number of
    connections registered. Afterwards each user holds exactly the
    connections whose send went through; no user is added or removed. *)
Theorem broadcast_effect (fails : link) (message : dict) (reg : gmap string (gset nat)) :
  dom (broadcast fails message reg).1 = dom reg /\
  (forall u conns, reg !! u = Some conns ->
     exists conns', (broadcast fails message reg).1 !! u = Some conns' /\
                    forall c, c ∈ conns' <-> c ∈ conns /\ fails c = false) /\
  (forall u conns c, reg !! u = Some conns -> c ∈ conns ->
     mkpush c message (negb (fails c)) ∈ (broadcast fails message reg).2) /\
  (broadcast fails message reg).2
    = concat (map (fun u =>
                     map (fun c => mkpush c message (negb (fails c)))
                         (elements (default ∅ (reg !! u))))
                  (elements (dom reg))) /\
  NoDup (elements (dom reg)) /\
  (forall u, NoDup (elements (default ∅ (reg !! u)))) /\
  (forall p, p ∈ (broadcast fails message reg).2 ->
     exists u conns c, reg !! u = Some conns /\ c ∈ conns /\
                       p = mkpush c message (negb (fails c))) /\
  length (broadcast fails message reg).2
    = list_sum (map (fun u => size (default ∅ (reg !! u))) (elements (dom reg))).
Proof.
  split; [apply NotificationFacts.broadcast_dom|].
  destruct (broadcast_fold fails message (elements (dom reg))
              (NoDup_elements _) reg []) as (_ & H2 & _ & H4).
  pose proof (broadcast_fold_trace fails message (elements (dom reg))
                (NoDup_elements _) reg []) as Ht.
  cbv zeta in H2, H4. cbn [app] in Ht. unfold broadcast.
  split; [|split; [|split; [|split; [|split; [|split]]]]].
  - intros u conns Hc. apply (H2 u conns); [|exact Hc].
    apply elem_of_elements. now apply elem_of_dom_2 in Hc.
  - intros u conns c Hc Hin. apply (H4 u conns c); [|exact Hc|exact Hin].
    apply elem_of_elements. now apply elem_of_dom_2 in Hc.
  - exact Ht.
  - apply NoDup_elements.
  - intros u. apply NoDup_elements.
  - intros p Hp. rewrite Ht in Hp. apply list_elem_of_In, in_concat in Hp.
    destruct Hp as (l & Hl & Hp). apply in_map_iff in Hl as (u & <- & Hu).
    unfold user_sends in Hp. apply in_map_iff in Hp as (c & <- & Hc).
    apply list_elem_of_In, elem_of_elements in Hc.
    destruct (reg !! u) as [conns|] eqn:Hreg.
    + exists u, conns, c. auto.
    + change (default ∅ (@None (gset nat))) with (∅ : gset nat) in Hc.
      exfalso. revert Hc. apply not_elem_of_empty.
  - rewrite Ht, length_concat, map_map. f_equal. apply map_ext. intros u.
    unfold user_sends. now rewrite length_map.
Qed.

(** Two users with two connections each, one of which is shared and one
    of which raises: four sends, the shared socket once per user. *)
Example broadcast_two_users :
  let reg : gmap string (gset nat) :=
    {[ "u1" := {[ 1%nat; 2%nat ]}; "u2" := {[ 2%nat; 3%nat ]} ]} in
  let r := broadcast (fun c => Nat.eqb c 3) [("type", JStr "sync")] reg in
  length r.2 = 4%nat /\
  r.1 !! "u1" = Some {[ 1%nat; 2%nat ]} /\
  r.1 !! "u2" = Some {[ 2%nat ]} /\
  length (filter (fun p => push_to p = 2%nat) r.2) = 2%nat /\
  length (filter (fun p => push_ok p = false) r.2) = 1%nat.
Proof. vm_compute. repeat split; reflexivity. Qed.

End NotificationMore.

(** ** Audit consumer: the log over a sequence of deliveries *)

Module AuditMore.
Import Py Consumer Audit.

(** On a string the two chains always produce a value. *)
Lemma derive_action_string (s : string) : exists a, derive_action (JStr s) = Some a.
Proof.
  unfold derive_action, elif_in, str_in.
  repeat match goal with |- context [str_contains ?l s] => destruct (str_contains l s) end;
    eauto.
Qed.

Lemma derive_entity_type_string (s : string) :
  exists t, derive_entity_type (JStr s) = Some t.
Proof.
  unfold derive_entity_type, elif_in, str_in.
  repeat match goal with |- context [str_contains ?l s] => destruct (str_contains l s) end;
    eauto.
Qed.

(** A key found by the membership test has a value. *)
Lemma key_present_lookup (k : string) (d : dict) :
  existsb (fun kv => String.eqb (fst kv) k) d = true ->
  exists v, dict_lookup k d = Some v.
Proof.
  induction d as [|[k' v'] d IH]; cbn [existsb dict_lookup fst]; [discriminate|].
  rewrite (String.eqb_sym k' k).
  destruct (String.eqb k k'); [eauto|exact IH].
Qed.

Lemma omap_cons {A B : Type} (f : A -> option B) (x : A) (l : list A) :
  omap f (x :: l) = match f x with Some y => y :: omap f l | None => omap f l end.
Proof. reflexivity. Qed.

(** With a change-set that is an object, if present, the snapshots are
    extracted without an exception. *)
Lemma extract_changes_defined (action : string) (data : dict) :
  (forall v, dict_lookup "changes" data = Some v -> exists c, v = JObj c) ->
  exists snapshots, extract_changes action (JObj data) = Some snapshots.
Proof.
  intros Hshape. unfold extract_changes.
  destruct (String.eqb action "updated").
  - cbn [str_in as_dict].
    destruct (existsb _ data) eqn:Hin; [|eauto].
    apply key_present_lookup in Hin as (v & Hv).
    destruct (Hshape v Hv) as (c & ->).
    unfold dict_get_default. rewrite Hv. cbn [as_dict]. eauto.
  - destruct (String.eqb action "created"); eauto.
Qed.

Section WithLibraries.

Variable datetime : Type.
Variable datetime_fromisoformat : string -> option datetime.
Variable json_dumps : json -> string.

Let parse := parse_event_to_audit datetime datetime_fromisoformat json_dumps.
Let handle := Audit.handle datetime datetime_fromisoformat json_dumps.
Let deliver_all := Audit.deliver_all datetime datetime_fromisoformat json_dumps.

(** X9. The log is append-only and counts every delivery it could
    record: over any sequence of deliveries to a configured store, the
    log afterwards is the log before followed by one row per delivery
    whose entry could be derived and whose insert did not raise, in
    delivery order (a redelivered event gives a second row); the answers
    are [SUCCESS] for the derivable entries and [RETRY] for the others.
    Without a store nothing is ever recorded. *)
Theorem deliver_all_appends (ds : list (delivery datetime)) (rows : list (AuditLog datetime)) :
  deliver_all ds (Some rows) =
    (map (fun d => match parse (d_utcnow _ d) (d_event _ d) (d_topic _ d) with
                   | Some _ => SUCCESS
                   | None => RETRY
                   end) ds,
     Some (rows ++
           omap (fun d => if d_insert_raises _ d then None
                          else parse (d_utcnow _ d) (d_event _ d) (d_topic _ d)) ds)) /\
  deliver_all ds None =
    (map (fun d => match parse (d_utcnow _ d) (d_event _ d) (d_topic _ d) with
                   | Some _ => SUCCESS
                   | None => RETRY
                   end) ds,
     None).
Proof.
  split.
  - revert rows. induction ds as [|d rest IH]; intros rows.
    + cbn. now rewrite app_nil_r.
    + unfold deliver_all in *. cbn [Audit.deliver_all map]. rewrite omap_cons.
      pose proof (AuditFacts.handle_cases datetime datetime_fromisoformat json_dumps
                    (d_topic _ d) (d_utcnow _ d) (d_insert_raises _ d) (d_event _ d)
                    (Some rows)) as Hh.
      fold parse in Hh |- *.
      destruct (parse (d_utcnow _ d) (d_event _ d) (d_topic _ d)) as [audit|].
      * rewrite Hh. destruct (d_insert_raises _ d); rewrite IH; cbv beta iota.
        -- reflexivity.
        -- now rewrite <- app_assoc.
      * rewrite Hh. destruct (d_insert_raises _ d); now rewrite IH.
  - induction ds as [|d rest IH]; [reflexivity|].
    unfold deliver_all in *. cbn [Audit.deliver_all map].
    pose proof (AuditFacts.handle_cases datetime datetime_fromisoformat json_dumps
                  (d_topic _ d) (d_utcnow _ d) (d_insert_raises _ d) (d_event _ d)
                  None) as Hh.
    fold parse in Hh |- *.
    destruct (parse (d_utcnow _ d) (d_event _ d) (d_topic _ d)) as [audit|];
      rewrite Hh, IH; reflexivity.
Qed.

(** X10. Every envelope the backend dumps is accepted by the audit
    consumer: when its [time] parses and its payload's change-set, if it
    has one, is an object, the entry is derived (so the delivery is
    answered [SUCCESS], never [RETRY]) and carries the envelope's id,
    type, source and time, the topic of the endpoint, and the payload's
    user id. *)
Theorem audit_accepts_envelope (ev : Schemas.TaskEvent) (topic : string)
    (utcnow ts : datetime) (insert_raises : bool) (eng : engine datetime) :
  Schemas.time ev <> "" ->
  datetime_fromisoformat (replace_Z (Schemas.time ev)) = Some ts ->
  (forall v, dict_lookup "changes" (Schemas.data ev) = Some v -> exists c, v = JObj c) ->
  exists row,
    parse utcnow (JObj (Schemas.to_dict ev)) topic = Some row /\
    fst (handle topic utcnow insert_raises (JObj (Schemas.to_dict ev)) eng) = SUCCESS /\
    event_id row = JStr (Schemas.id ev) /\
    event_type row = JStr (Schemas.type ev) /\
    Audit.topic _ row = topic /\
    Audit.source _ row = JStr (Schemas.source ev) /\
    Audit.user_id _ row = dict_get "user_id" (Schemas.data ev) /\
    Audit.timestamp _ row = ts.
Proof.
  intros Htime Hts Hshape.
  destruct (derive_action_string (Schemas.type ev)) as (a & Ha).
  destruct (derive_entity_type_string (Schemas.type ev)) as (t & Ht).
  destruct (extract_changes_defined a (Schemas.data ev) Hshape) as (snaps & Hsn).
  assert (Hstamp : event_timestamp datetime datetime_fromisoformat utcnow (Schemas.to_dict ev)
                   = Some ts).
  { unfold event_timestamp. cbn.
    destruct (String.eqb_spec (Schemas.time ev) ""); [congruence|]. exact Hts. }
  assert (Hparse : exists row,
             parse utcnow (JObj (Schemas.to_dict ev)) topic = Some row /\
             event_id row = JStr (Schemas.id ev) /\
             event_type row = JStr (Schemas.type ev) /\
             Audit.topic _ row = topic /\
             Audit.source _ row = JStr (Schemas.source ev) /\
             Audit.user_id _ row = dict_get "user_id" (Schemas.data ev) /\
             Audit.timestamp _ row = ts).
  { unfold parse, parse_event_to_audit. cbn [as_dict mbind option_bind].
    change (dict_get_default "type" (JStr "unknown") (Schemas.to_dict ev))
      with (JStr (Schemas.type ev)).
    change (dict_get_default "data" (JObj []) (Schemas.to_dict ev))
      with (JObj (Schemas.data ev)).
    rewrite Ha, Ht. cbn [mbind option_bind]. rewrite Hsn. cbn [as_dict mbind option_bind].
    rewrite Hstamp. cbn [mbind option_bind].
    eexists. split; [reflexivity|]. cbn. auto 10. }
  destruct Hparse as (row & Hrow & Hfields).
  exists row. split; [exact Hrow|]. split; [|exact Hfields].
  pose proof (AuditFacts.handle_cases datetime datetime_fromisoformat json_dumps
                topic utcnow insert_raises (JObj (Schemas.to_dict ev)) eng) as Hh.
  fold parse in Hh. rewrite Hrow in Hh. unfold handle. now rewrite Hh.
Qed.

End WithLibraries.

Lemma audit_accepts_envelope_witness :
  exists row,
    parse_event_to_audit unit (fun _ => Some tt) (fun _ => "{}") tt
      (JObj (Schemas.to_dict
               (Schemas.TaskDeletedEvent_from_task
                  (Schemas.mkDefaults "e-9" "2026-02-01T09:00:00Z") 42 "u1")))
      "task-events" = Some row /\
    event_id row = JStr "e-9".
Proof.
  destruct (audit_accepts_envelope unit (fun _ => Some tt) (fun _ => "{}")
              (Schemas.TaskDeletedEvent_from_task
                 (Schemas.mkDefaults "e-9" "2026-02-01T09:00:00Z") 42 "u1")
              "task-events" tt tt false None
              ltac:(discriminate) eq_refl ltac:(discriminate))
    as (row & Hrow & _ & Hid & _).
  exists row. split; [exact Hrow|exact Hid].
Defined.

End AuditMore.

(** ** Dates: ISO form and validity of computed dates *)

Module PyDateMore.
Import PyDate.

Lemma digit_roundtrip (n : Z) : digit_of_ascii (ascii_of_digit n) = Some (n mod 10).
Proof.
  unfold ascii_of_digit.
  pose proof (Z.mod_pos_bound n 10 ltac:(lia)) as Hb.
  set (k := n mod 10) in *.
  assert (Hk : k = 0 \/ k = 1 \/ k = 2 \/ k = 3 \/ k = 4 \/
               k = 5 \/ k = 6 \/ k = 7 \/ k = 8 \/ k = 9) by lia.
  destruct Hk as [->|[->|[->|[->|[->|[->|[->|[->|[->| ->]]]]]]]]]; reflexivity.
Qed.

Lemma four_digits (y : Z) :
  0 <= y <= 9999 ->
  digits_value 0
    (String (ascii_of_digit (y / 1000)) (String (ascii_of_digit (y / 100))
    (String (ascii_of_digit (y / 10)) (String (ascii_of_digit y) EmptyString))))
  = Some y.
Proof.
  intros Hy. cbn [digits_value]. rewrite !digit_roundtrip. cbn [digits_value].
  f_equal. Z.div_mod_to_equations. lia.
Qed.

Lemma two_digits (m : Z) :
  0 <= m <= 99 ->
  digits_value 0 (String (ascii_of_digit (m / 10)) (String (ascii_of_digit m) EmptyString))
  = Some m.
Proof.
  intros Hm. cbn [digits_value]. rewrite !digit_roundtrip. cbn [digits_value].
  f_equal. Z.div_mod_to_equations. lia.
Qed.

Lemma days_in_month_bounds (y m : Z) :
  1 <= m <= 12 -> 28 <= days_in_month y m <= 31.
Proof.
  intros Hm. unfold days_in_month.
  assert (Hk : m = 1 \/ m = 2 \/ m = 3 \/ m = 4 \/ m = 5 \/ m = 6 \/
               m = 7 \/ m = 8 \/ m = 9 \/ m = 10 \/ m = 11 \/ m = 12) by lia.
  destruct Hk as [->|[->|[->|[->|[->|[->|[->|[->|[->|[->|[->| ->]]]]]]]]]]];
    cbn; try lia.
  destruct (is_leap y); cbn; lia.
Qed.

Lemma valid_date_bounds (d : date) :
  valid_date d = true ->
  1 <= year d <= 9999 /\ 1 <= month d <= 12 /\
  1 <= day d <= days_in_month (year d) (month d).
Proof.
  unfold valid_date, MINYEAR, MAXYEAR. intros H.
  repeat (apply andb_true_iff in H; destruct H as [H ?]).
  repeat match goal with Hb : (_ <=? _) = true |- _ => apply Z.leb_le in Hb end.
  lia.
Qed.

Lemma valid_date_intro (d : date) :
  1 <= year d <= 9999 -> 1 <= month d <= 12 ->
  1 <= day d <= days_in_month (year d) (month d) ->
  valid_date d = true.
Proof.
  intros Hy Hm Hd. unfold valid_date, MINYEAR, MAXYEAR.
  repeat (apply andb_true_iff; split); apply Z.leb_le; lia.
Qed.

(** [date.fromisoformat] only returns dates that exist. *)
Lemma fromisoformat_valid (s : string) (d : date) :
  fromisoformat s = Some d -> valid_date d = true.
Proof.
  unfold fromisoformat. intros H.
  repeat match type of H with
         | context [match ?x with _ => _ end] =>
             destruct x eqn:?; try discriminate H
         end.
  congruence.
Qed.

(** Writing a valid date in ISO form and reading it back gives the date. *)
Lemma fromisoformat_isoformat (d : date) :
  valid_date d = true -> fromisoformat (isoformat d) = Some d.
Proof.
  intros Hv. destruct (valid_date_bounds d Hv) as (Hy & Hm & Hd).
  pose proof (days_in_month_bounds (year d) (month d) Hm) as Hdim.
  unfold fromisoformat, isoformat.
  cbv beta iota zeta.
  rewrite four_digits by lia. rewrite !two_digits by lia.
  destruct d as [y m dd]. cbn [year month day] in *. now rewrite Hv.
Qed.

End PyDateMore.

(** ** Recurrence consumer: state API, footprint of a delivery, chains *)

Module RecurringMore.
Import Py PyDate Consumer Recurring Scenario.

(** *** Dates the handler computes and stores *)

Lemma add_relativedelta_valid (d d' : date) (rd : relativedelta) :
  valid_date d = true ->
  -11 <= rd_months rd <= 11 ->
  add_relativedelta d rd = Some d' ->
  valid_date d' = true.
Proof.
  intros Hv Hrd. destruct (PyDateMore.valid_date_bounds d Hv) as (Hy & Hm & Hd).
  unfold add_relativedelta.
  assert (Hgen : forall y m,
             1 <= m <= 12 ->
             (if (MINYEAR <=? y) && (y <=? MAXYEAR)
              then Some (mkdate y m (Z.min (days_in_month y m) (day d)))
              else None) = Some d' ->
             valid_date d' = true).
  { intros y m Hm'.
    destruct ((MINYEAR <=? y) && (y <=? MAXYEAR)) eqn:Hr; [|discriminate].
    apply andb_true_iff in Hr as [Hlo Hhi].
    apply Z.leb_le in Hlo, Hhi. unfold MINYEAR, MAXYEAR in *.
    intros H. apply (inj Some) in H. rewrite <- H.
    pose proof (PyDateMore.days_in_month_bounds y m Hm').
    apply PyDateMore.valid_date_intro; cbn [year month day]; lia. }
  destruct (Z.eqb_spec (rd_months rd) 0).
  - apply Hgen. lia.
  - destruct (Z.ltb_spec 12 (month d + rd_months rd)); [apply Hgen; lia|].
    destruct (Z.ltb_spec (month d + rd_months rd) 1); apply Hgen; lia.
Qed.

(** X11. [calculate_next_due_date] never produces a date that does not
    exist: from a valid date, whatever the pattern and the interval
    (zero and negative intervals included), the result, when there is
    one, is a valid date of the years 1 to 9999. *)
Theorem next_due_date_valid (d d' : date) (p : RecurrencePattern) (n : Z) :
  valid_date d = true ->
  calculate_next_due_date d p n = Some d' ->
  valid_date d' = true.
Proof.
  intros Hv. destruct p; cbn [calculate_next_due_date]; intros H.
  1-3: now apply PyDateFacts.add_days_spec in H.
  - apply (add_relativedelta_valid d d' _ Hv) in H; [exact H|].
    apply RecurringFacts.relativedelta_months_total.
  - apply (add_relativedelta_valid d d' (mkrel n 0) Hv); [cbn; lia|exact H].
Qed.

Lemma next_due_date_valid_witness :
  valid_date (mkdate 2024 3 31) = true.
Proof.
  apply (next_due_date_valid (mkdate 2024 2 29) (mkdate 2024 3 31) DAILY 31);
    [reflexivity|vm_compute; reflexivity].
Defined.

(** X12. The state a spawn writes is ready for the next round: the due
    date stored in its template, written in ISO form, reads back as the
    computed next date at any later delivery, and when a non-zero
    maximum is set the incremented [occurrences_created] does not exceed
    it. *)
Theorem spawned_state_ready (e e' : env) (cfg : RecurrenceConfig) (task_data : dict)
    (cur next : date) (task_id : json) :
  current_due_date e task_data = Some cur ->
  calculate_next_due_date cur (pattern cfg) (interval cfg) = Some next ->
  max_reached cfg = false ->
  current_due_date e' (Recurring.task_data (next_state cfg task_data next task_id))
    = Some next /\
  (forall m, max_occurrences cfg = Some m -> m <> 0 ->
     occurrences_created (config (next_state cfg task_data next task_id)) <= m).
Proof.
  intros Hcur Hnext Hmax. split.
  - assert (Hv : valid_date cur = true).
    { unfold current_due_date in Hcur.
      destruct (dict_get_default _ _ _); try discriminate.
      now apply PyDateMore.fromisoformat_valid in Hcur. }
    assert (Hv' : valid_date next = true).
    { destruct (pattern cfg); cbn [calculate_next_due_date] in Hnext.
      1-3: now apply PyDateFacts.add_days_spec in Hnext.
      - refine (add_relativedelta_valid cur next _ Hv _ Hnext).
        apply RecurringFacts.relativedelta_months_total.
      - refine (add_relativedelta_valid cur next (mkrel (interval cfg) 0) Hv _ Hnext).
        cbn; lia. }
    unfold current_due_date, dict_get_default, next_state. cbn [Recurring.task_data].
    rewrite RecurringFacts.dict_lookup_set_eq.
    now apply PyDateMore.fromisoformat_isoformat.
  - intros m Hm Hnz. unfold max_reached in Hmax. rewrite Hm in Hmax.
    cbn [next_state config occurrences_created].
    destruct (Z.eqb_spec m 0); [congruence|]. cbn [negb andb] in Hmax.
    apply Z.leb_gt in Hmax. lia.
Qed.

Lemma spawned_state_ready_witness :
  current_due_date (world backend_down)
    (Recurring.task_data
       (next_state (config state_42) standup_template (mkdate 2026 2 2) (JInt 42)))
  = Some (mkdate 2026 2 2).
Proof.
  apply (spawned_state_ready (world backend_up) (world backend_down) (config state_42)
           standup_template (mkdate 2026 2 1) (mkdate 2026 2 2) (JInt 42));
    reflexivity.
Defined.

(** *** The recurrence API *)

(** X13. With the state store answering, [POST /recurrence] answers 200
    and the state it writes is read back by [GET /recurrence/{task_id}]
    with [occurrences_created = 0], replacing whatever the task had; no
    other task's state changes; and after [DELETE /recurrence/{task_id}]
    the task has no state. When the store refuses the write the answer is
    500 and nothing changes. *)
Theorem recurrence_api_round_trip (e : env) (request : SetRecurrenceRequest)
    (store : gmap string RecurrenceState) :
  get_ok e = true ->
  delete_ok e = true ->
  (save_ok e = true ->
   fst (set_recurrence e request store) = 200 /\
   get_recurrence e (req_task_id request) (snd (set_recurrence e request store)) =
     Some (mkRecurrenceState
             (mkRecurrenceConfig (req_pattern request) (req_interval request)
                (req_end_date request) (req_max_occurrences request) 0)
             (req_task_data request) None) /\
   (forall other, other <> req_task_id request ->
      get_recurrence e other (snd (set_recurrence e request store)) =
      get_recurrence e other store) /\
   get_recurrence e (req_task_id request)
     (snd (remove_recurrence e (req_task_id request)
             (snd (set_recurrence e request store)))) = None) /\
  (save_ok e = false -> set_recurrence e request store = (500, store)).
Proof.
  intros Hget Hdel. unfold set_recurrence, remove_recurrence, get_recurrence,
    get_recurrence_state, save_recurrence_state, delete_recurrence_state.
  rewrite Hget, Hdel. split.
  - intros ->. cbn [fst snd]. repeat split.
    + apply lookup_insert_eq.
    + intros other Hne. rewrite lookup_insert_ne; [reflexivity|].
      intros Hk. apply RecurringFacts.state_key_int_inj in Hk. congruence.
    + apply lookup_delete_eq.
  - intros ->. reflexivity.
Qed.

Lemma recurrence_api_round_trip_witness :
  fst (set_recurrence (world backend_up) standup_request ∅) = 200.
Proof.
  destruct (recurrence_api_round_trip (world backend_up) standup_request ∅
              eq_refl eq_refl) as [H _].
  destruct (H eq_refl) as [H200 _]. exact H200.
Defined.

(** *** What one delivery can do *)

(** Either the handler leaves everything as it was, or the event is a
    completion of a task that has state. *)
Lemma handle_quiet_or_completion (e : env) (event : json)
    (store : gmap string RecurrenceState) :
  (exists s, (s = SUCCESS \/ s = RETRY) /\
             handle_task_events e event store = mkoutcome s store []) \/
  (exists task_id user_id st,
     completion_event event task_id user_id /\ get_ok e = true /\
     store !! state_key task_id = Some st).
Proof.
  unfold handle_task_events.
  destruct event as [| | | | |event_d]; cbn [as_dict];
    try (left; exists RETRY; split; [auto|reflexivity]).
  destruct (eq_str (dict_get_default "type" (JStr "") event_d) "task.completed") eqn:Hty;
    cbn [negb]; [|left; exists SUCCESS; split; [auto|reflexivity]].
  destruct (dict_get_default "data" (JObj []) event_d) as [| | | | |data] eqn:Hdata;
    cbn [as_dict]; try (left; exists RETRY; split; [auto|reflexivity]).
  destruct (truthy (dict_get_default "completed" (JBool false) data)) eqn:Hc;
    cbn [negb orb]; [|left; exists SUCCESS; split; [auto|reflexivity]].
  destruct (truthy (dict_get "task_id" data)) eqn:Ht; cbn [negb orb];
    [|left; exists SUCCESS; split; [auto|reflexivity]].
  destruct (truthy (dict_get "user_id" data)) eqn:Hu; cbn [negb];
    [|left; exists SUCCESS; split; [auto|reflexivity]].
  unfold get_recurrence_state.
  destruct (get_ok e) eqn:Hget; [|left; exists SUCCESS; split; [auto|reflexivity]].
  destruct (store !! state_key (dict_get "task_id" data)) as [st|] eqn:Hst;
    [|left; exists SUCCESS; split; [auto|reflexivity]].
  right. exists (dict_get "task_id" data), (dict_get "user_id" data), st.
  split; [|auto]. exists event_d, data. auto 10.
Qed.

(** The outcomes of the spawn block. *)
Lemma spawn_next_outcomes (e : env) (task_id user_id : json) (st : RecurrenceState)
    (store : gmap string RecurrenceState) :
  (exists cs, (length cs <= 1)%nat /\
              (spawn_next e task_id user_id st store = mkoutcome SUCCESS store cs \/
               spawn_next e task_id user_id st store = mkoutcome RETRY store cs)) \/
  (exists c new_task st',
     create_next_task e c = Some (JObj new_task) /\
     spawn_next e task_id user_id st store =
       mkoutcome SUCCESS (<[state_key (dict_get "id" new_task) := st']> store) [c]).
Proof.
  unfold spawn_next.
  destruct (current_due_date e (task_data st)) as [cur|];
    [|left; eexists; split; [|right; reflexivity]; cbn; lia].
  destruct (calculate_next_due_date _ _ _) as [next|];
    [|left; eexists; split; [|right; reflexivity]; cbn; lia].
  destruct (create_next_task e _) as [new_task|] eqn:Hc;
    [|left; eexists; split; [|left; reflexivity]; cbn; lia].
  destruct (truthy new_task);
    [|left; eexists; split; [|left; reflexivity]; cbn; lia].
  destruct new_task as [| | | | |new_task_d]; cbn [as_dict];
    try (left; eexists; split; [|right; reflexivity]; cbn; lia).
  unfold save_recurrence_state. destruct (save_ok e).
  - right. eexists _, new_task_d, _. split; [exact Hc|reflexivity].
  - left. eexists; split; [|left; reflexivity]; cbn; lia.
Qed.

(** X14. The footprint of one delivery to the recurrence consumer. The
    answer is [SUCCESS] or [RETRY]; at most one task-creation call is
    made; a [RETRY] leaves the state store exactly as it was; when the
    store changes or a call is made the event is a completion event of a
    task that has state; and the only keys whose state can change are the
    key of the completed task and the key of the task a successful
    creation call returned. *)
Theorem delivery_footprint (e : env) (event : json) (store : gmap string RecurrenceState) :
  (answer (handle_task_events e event store) = SUCCESS \/
   answer (handle_task_events e event store) = RETRY) /\
  (length (calls (handle_task_events e event store)) <= 1)%nat /\
  (answer (handle_task_events e event store) = RETRY ->
   store_after (handle_task_events e event store) = store) /\
  (store_after (handle_task_events e event store) <> store \/
   calls (handle_task_events e event store) <> [] ->
   exists task_id user_id st,
     completion_event event task_id user_id /\ store !! state_key task_id = Some st) /\
  (forall k,
     store_after (handle_task_events e event store) !! k <> store !! k ->
     (exists task_id user_id,
        completion_event event task_id user_id /\ k = state_key task_id) \/
     (exists c new_task,
        calls (handle_task_events e event store) = [c] /\
        create_next_task e c = Some (JObj new_task) /\
        k = state_key (dict_get "id" new_task))).
Proof.
  change (footprint e event store (handle_task_events e event store)).
  destruct (handle_quiet_or_completion e event store)
    as [(s & Hs & ->)|(task_id & user_id & st & Hev & Hget & Hst)].
  - unfold footprint. cbn [answer calls store_after]. split; [|split; [|split; [|split]]].
    + destruct Hs as [->| ->]; auto.
    + cbn. lia.
    + reflexivity.
    + intros [H|H]; congruence.
    + intros k H. congruence.
  - rewrite (RecurringFacts.handle_completion _ _ _ _ _ _ Hev Hget Hst).
    assert (Hwho : exists task_id user_id st,
               completion_event event task_id user_id /\
               store !! state_key task_id = Some st) by eauto.
    assert (Hsame : forall s cs,
              (s = SUCCESS \/ s = RETRY) -> (length cs <= 1)%nat ->
              footprint e event store (mkoutcome s store cs)).
    { intros s cs Hs Hl. unfold footprint. cbn [answer calls store_after].
      split; [exact Hs|]. split; [exact Hl|]. split; [reflexivity|].
      split; [intros _; exact Hwho|]. intros k H. congruence. }
    assert (Hdeleted : footprint e event store
                         (mkoutcome SUCCESS (delete (state_key task_id) store) [])).
    { unfold footprint. cbn [answer calls store_after].
      split; [auto|]. split; [cbn; lia|]. split; [discriminate|].
      split; [intros _; exact Hwho|].
      intros k H. left. exists task_id, user_id. split; [exact Hev|].
      destruct (decide (state_key task_id = k)) as [<-|Hne]; [reflexivity|].
      rewrite lookup_delete_ne in H by done. congruence. }
    assert (Hspawn : footprint e event store (spawn_next e task_id user_id st store)).
    { destruct (spawn_next_outcomes e task_id user_id st store)
        as [(cs & Hl & [-> | ->])|(c & nt & st' & Hc & ->)].
      - apply Hsame; auto.
      - apply Hsame; auto.
      - unfold footprint. cbn [answer calls store_after].
        split; [auto|]. split; [cbn; lia|]. split; [discriminate|].
        split; [intros _; exact Hwho|].
        intros k H. right. exists c, nt. split; [reflexivity|]. split; [exact Hc|].
        destruct (decide (state_key (dict_get "id" nt) = k)) as [<-|Hne]; [reflexivity|].
        rewrite lookup_insert_ne in H by done. congruence. }
    change (footprint e event store
              match past_end_date e (config st) with
              | Some past =>
                  let store1 :=
                    if past then (delete_recurrence_state e task_id store).2 else store in
                  let store2 :=
                    if max_reached (config st)
                    then (delete_recurrence_state e task_id store1).2 else store1 in
                  if negb past && negb (max_reached (config st))
                  then spawn_next e task_id user_id st store2
                  else mkoutcome SUCCESS store2 []
              | None => mkoutcome RETRY store []
              end).
    destruct (past_end_date e (config st)) as [past|]; [|apply Hsame; [auto|cbn; lia]].
    unfold delete_recurrence_state.
    destruct past, (max_reached (config st)), (delete_ok e); cbn [negb andb snd];
      cbv zeta; rewrite ?delete_delete_eq;
      first [exact Hdeleted | exact Hspawn | apply Hsame; [auto|cbn; lia]].
Qed.

(** X15. A redelivery is not a no-op. After a completion event has
    spawned the next occurrence under a key different from the completed
    task's, the store the first delivery leaves still holds the original
    state, unchanged, at the completed task's key; delivering the same
    event again to that store therefore finds it, makes the same
    task-creation call a second time and answers SUCCESS again. *)
Theorem redelivery_spawns_again (e : env) (event task_id user_id : json)
    (store : gmap string RecurrenceState) (st : RecurrenceState) (cur next : date)
    (new_task : dict) :
  completion_event event task_id user_id ->
  get_ok e = true ->
  store !! state_key task_id = Some st ->
  active e (config st) ->
  current_due_date e (task_data st) = Some cur ->
  calculate_next_due_date cur (pattern (config st)) (interval (config st)) = Some next ->
  create_next_task e (next_call user_id (task_data st) next) = Some (JObj new_task) ->
  new_task <> [] ->
  state_key (dict_get "id" new_task) <> state_key task_id ->
  let first := handle_task_events e event store in
  let second := handle_task_events e event (store_after first) in
  calls first = [next_call user_id (task_data st) next] /\
  calls second = [next_call user_id (task_data st) next] /\
  store_after first !! state_key task_id = Some st /\
  get_recurrence_state e task_id (store_after first) = Some st /\
  answer second = SUCCESS /\
  store_after second !! state_key task_id = Some st.
Proof.
  intros Hev Hget Hst Hact Hcur Hnext Hcreate Hne Hkey. cbv zeta.
  assert (Hkeep : forall s0 : gmap string RecurrenceState,
            s0 !! state_key task_id = Some st ->
            snd (save_recurrence_state e (dict_get "id" new_task)
                   (next_state (config st) (task_data st) next task_id) s0)
              !! state_key task_id = Some st).
  { intros s0 Hs0. unfold save_recurrence_state.
    destruct (save_ok e); cbn [snd]; [|exact Hs0]. now rewrite lookup_insert_ne. }
  assert (Hfirst : handle_task_events e event store =
                   mkoutcome SUCCESS
                     (snd (save_recurrence_state e (dict_get "id" new_task)
                             (next_state (config st) (task_data st) next task_id) store))
                     [next_call user_id (task_data st) next]).
  { rewrite (RecurringFacts.handle_active _ _ _ _ _ _ Hev Hget Hst Hact).
    apply (RecurringFacts.spawn_next_created _ _ _ _ _ _ _ _ Hcur Hnext Hcreate Hne). }
  rewrite Hfirst. cbn [store_after calls answer].
  assert (Hsecond : handle_task_events e event
                      (snd (save_recurrence_state e (dict_get "id" new_task)
                              (next_state (config st) (task_data st) next task_id) store)) =
                    mkoutcome SUCCESS
                      (snd (save_recurrence_state e (dict_get "id" new_task)
                              (next_state (config st) (task_data st) next task_id)
                              (snd (save_recurrence_state e (dict_get "id" new_task)
                                      (next_state (config st) (task_data st) next task_id)
                                      store))))
                      [next_call user_id (task_data st) next]).
  { rewrite (RecurringFacts.handle_active _ _ _ _ _ _ Hev Hget (Hkeep _ Hst) Hact).
    apply (RecurringFacts.spawn_next_created _ _ _ _ _ _ _ _ Hcur Hnext Hcreate Hne). }
  rewrite Hsecond. cbn [store_after calls answer].
  split; [reflexivity|]. split; [reflexivity|]. split; [exact (Hkeep _ Hst)|].
  split; [|split; [reflexivity|exact (Hkeep _ (Hkeep _ Hst))]].
  unfold get_recurrence_state. rewrite Hget. now rewrite (Hkeep _ Hst).
Qed.

Lemma redelivery_spawns_again_witness :
  store_after (handle_task_events (world backend_up) completed_42 store_42)
    !! state_key (JInt 42) = Some state_42 /\
  length (calls (handle_task_events (world backend_up) completed_42
                   (store_after (handle_task_events (world backend_up) completed_42
                                   store_42)))) = 1%nat.
Proof.
  destruct (redelivery_spawns_again (world backend_up) completed_42 (JInt 42) (JStr "u1")
              store_42 state_42 (mkdate 2026 2 1) (mkdate 2026 2 2)
              (("id", JInt 43) :: ("user_id", JStr "u1") ::
               posted_task_data (next_call (JStr "u1") standup_template (mkdate 2026 2 2)))
              RecurringFacts.completed_42_event eq_refl eq_refl (conj eq_refl eq_refl)
              eq_refl eq_refl eq_refl ltac:(discriminate) ltac:(discriminate))
    as (_ & H & Hs & _).
  split; [exact Hs|]. now rewrite H.
Defined.

Lemma date_gt_irrefl (d : date) : date_gt d d = false.
Proof.
  unfold date_gt. rewrite !Z.ltb_irrefl, !Z.eqb_refl. reflexivity.
Qed.

(** X16. The end date is inclusive. A completion delivered after the end
    date deletes the state and creates nothing; a completion delivered on
    the end date itself still spawns the next occurrence (unless the
    maximum is reached). *)
Theorem end_date_inclusive (e : env) (event task_id user_id : json)
    (store : gmap string RecurrenceState) (st : RecurrenceState) (s : string) (d : date) :
  completion_event event task_id user_id ->
  get_ok e = true ->
  delete_ok e = true ->
  store !! state_key task_id = Some st ->
  end_date (config st) = Some s ->
  fromisoformat s = Some d ->
  (date_gt (today e) d = true ->
   handle_task_events e event store =
     mkoutcome SUCCESS (delete (state_key task_id) store) []) /\
  (today e = d -> max_reached (config st) = false ->
   handle_task_events e event store = spawn_next e task_id user_id st store).
Proof.
  intros Hev Hget Hdel Hst Hend Hd.
  assert (Hpast : past_end_date e (config st) = Some (date_gt (today e) d)).
  { unfold past_end_date. rewrite Hend.
    destruct (String.eqb_spec s ""); [subst; discriminate|]. now rewrite Hd. }
  rewrite (RecurringFacts.handle_completion _ _ _ _ _ _ Hev Hget Hst), Hpast.
  unfold delete_recurrence_state. rewrite Hdel. split.
  - intros ->. cbn [negb andb snd].
    destruct (max_reached (config st)); [now rewrite delete_delete_eq|reflexivity].
  - intros -> ->. now rewrite date_gt_irrefl.
Qed.

Lemma end_date_inclusive_witness :
  handle_task_events (world backend_up) completed_42
    (<["recurrence-42" :=
         mkRecurrenceState (mkRecurrenceConfig DAILY 1 (Some "2026-01-31") None 0)
           standup_template None]> ∅)
  = mkoutcome SUCCESS ∅ [].
Proof.
  destruct (end_date_inclusive (world backend_up) completed_42 (JInt 42) (JStr "u1")
              (<["recurrence-42" :=
                   mkRecurrenceState (mkRecurrenceConfig DAILY 1 (Some "2026-01-31") None 0)
                     standup_template None]> ∅)
              _ "2026-01-31" (mkdate 2026 1 31)
              RecurringFacts.completed_42_event eq_refl eq_refl (lookup_insert_eq _ _ _)
              eq_refl eq_refl) as [H _].
  rewrite (H eq_refl). f_equal.
Defined.

End RecurringMore.

(** ** From the task routes to the consumers *)

Module PipelineMore.
Import Py Schemas Publisher TaskRoutes Consumer.

(** Every request of a publish carries the dump of the envelope. *)
Lemma published_body (p : EventPublisher) (net : network) (topic : Topics)
    (event : TaskEvent) (retry_count : Z) (r : request) :
  r ∈ snd (publish p net topic event retry_count) ->
  delivered r = JObj (to_dict event).
Proof.
  destruct (PublisherMore.publish_snd_repeat p net topic event retry_count)
    as (n & _ & Hs).
  rewrite Hs. intros Hr. apply list_elem_of_In, repeat_spec in Hr. now subst r.
Qed.

(** X17. What the recurrence consumer makes of the envelopes the task
    routes publish. A toggle to completed, for a task id other than 0
    and a non-empty user id, is delivered as a completion event of that
    task and user; a toggle back to not completed, and the deletion of a
    task, are answered [SUCCESS] with the state store untouched and no
    call made, so deleting a task leaves its recurrence state in place.
    Each route issues at most three requests. *)
Theorem route_events_at_recurrence (p : EventPublisher) (net : network) (dflt : Defaults)
    (task_id : Z) (user_id title : string) :
  (forall r, r ∈ publish_completion_event p net dflt task_id user_id title true ->
     task_id <> 0 -> user_id <> "" ->
     Recurring.completion_event (delivered r) (JInt task_id) (JStr user_id)) /\
  (forall r e store,
     r ∈ publish_completion_event p net dflt task_id user_id title false \/
     r ∈ publish_deleted_event p net dflt task_id user_id ->
     Recurring.handle_task_events e (delivered r) store =
       Recurring.mkoutcome SUCCESS store []) /\
  (forall completed,
     (length (publish_completion_event p net dflt task_id user_id title completed) <= 3)%nat) /\
  (length (publish_deleted_event p net dflt task_id user_id) <= 3)%nat.
Proof.
  assert (Hlen : forall event,
            (length (snd (publish_to_task_events p net event)) <= 3)%nat).
  { intros event. unfold publish_to_task_events.
    destruct (PublisherMore.publish_snd_repeat p net TASK_EVENTS event default_retry_count)
      as (n & Hn & Hs).
    rewrite Hs, repeat_length. unfold default_retry_count in Hn. lia. }
  split; [|split; [|split]].
  - intros r Hr Hid Hu. apply published_body in Hr. rewrite Hr.
    eexists _, _. split; [reflexivity|].
    split; [reflexivity|]. split; [reflexivity|]. split; [reflexivity|].
    split; [reflexivity|]. split; [reflexivity|]. split.
    + cbn. destruct (Z.eqb_spec task_id 0); [congruence|reflexivity].
    + cbn. destruct (String.eqb_spec user_id ""); [congruence|reflexivity].
  - intros r e store [Hr|Hr]; apply published_body in Hr; rewrite Hr; reflexivity.
  - intros completed. apply Hlen.
  - apply Hlen.
Qed.

Section WithLibraries.

Variable datetime : Type.
Variable datetime_fromisoformat : string -> option datetime.
Variable json_dumps : json -> string.

(** X18. The audit entry of a created task. For the envelope
    [TaskCreatedEvent.from_task] builds, with a task id other than 0 and
    a [time] that parses, the audit consumer derives an entry with action
    ["created"], entity type ["task"], the task's id and user, no old
    snapshot, and the serialised payload as new snapshot. *)
Theorem created_event_audited (dflt : Defaults) (task_id : Z) (user_id title : string)
    (description : option string) (priority category status : string)
    (due_date : option PyDate.date) (completed : bool)
    (topic : string) (utcnow ts : datetime) :
  task_id <> 0 ->
  now dflt <> "" ->
  datetime_fromisoformat (Audit.replace_Z (now dflt)) = Some ts ->
  let ev := TaskCreatedEvent_from_task dflt task_id user_id title description
              priority category status due_date completed in
  exists row,
    Audit.parse_event_to_audit datetime datetime_fromisoformat json_dumps utcnow
      (JObj (to_dict ev)) topic = Some row /\
    Audit.action row = "created" /\
    Audit.entity_type row = "task" /\
    Audit.entity_id _ row = JInt task_id /\
    Audit.user_id _ row = JStr user_id /\
    Audit.old_data _ row = None /\
    Audit.new_data _ row = Some (json_dumps (JObj (data ev))).
Proof.
  intros Hid Hnow Hts ev.
  unfold Audit.parse_event_to_audit. cbn [as_dict mbind option_bind].
  change (dict_get_default "type" (JStr "unknown") (to_dict ev)) with (JStr "task.created").
  change (dict_get_default "data" (JObj []) (to_dict ev)) with (JObj (data ev)).
  change (Audit.derive_action (JStr "task.created")) with (Some "created").
  change (Audit.derive_entity_type (JStr "task.created")) with (Some "task").
  cbn [mbind option_bind].
  change (Audit.extract_changes "created" (JObj (data ev))) with (Some (JNull, JObj (data ev))).
  cbn [as_dict mbind option_bind].
  assert (Hstamp : Audit.event_timestamp datetime datetime_fromisoformat utcnow (to_dict ev)
                   = Some ts).
  { unfold Audit.event_timestamp. cbn.
    destruct (String.eqb_spec (now dflt) ""); [congruence|]. exact Hts. }
  rewrite Hstamp. cbn [mbind option_bind].
  eexists. split; [reflexivity|]. cbn. unfold Audit.py_or. cbn [truthy].
  destruct (Z.eqb_spec task_id 0); [congruence|]. cbn. auto 10.
Qed.

End WithLibraries.

Lemma created_event_audited_witness :
  exists row,
    Audit.parse_event_to_audit unit (fun _ => Some tt) (fun _ => "{}") tt
      (JObj (to_dict (TaskCreatedEvent_from_task
                        (mkDefaults "e-1" "2026-02-01T09:00:00Z") 42 "u1" "Standup" None
                        "medium" "work" "pending" None false)))
      "task-events" = Some row /\
    Audit.action row = "created".
Proof.
  destruct (created_event_audited unit (fun _ => Some tt) (fun _ => "{}")
              (mkDefaults "e-1" "2026-02-01T09:00:00Z") 42 "u1" "Standup" None
              "medium" "work" "pending" None false "task-events" tt tt
              ltac:(discriminate) ltac:(discriminate) eq_refl)
    as (row & Hrow & Ha & _).
  exists row. split; [exact Hrow|exact Ha].
Defined.

End PipelineMore.
